(** * The everspin mr25hxx SPI MRAM driver (drivers/mtd/spi/mr25hxx.c)

    A shallow embedding of the driver: its three file-scope variables, the
    [struct mtd_info] objects it fills in, and its entry points
    [spi_mram_probe], [spi_mram_remove], [spi_mram_read], [spi_mram_write],
    [spi_mram_erase], [spi_mram_mtd_register] and [spi_mram_mtd_unregister],
    written as computations in a state monad that can fault (a dereference of
    a null pointer).  The SPI core, the MTD core and the allocator are the
    driver's collaborators; they are an interface ([Platform]) the driver is
    generic in. *)

From Stdlib Require Import ZArith Lia.
From stdpp Require Import base option list strings gmap.

Local Open Scope Z_scope.

(** ** Constants of headers the driver includes *)

(** Modelled from the spec: the chip-select framing flags of [spi.h], which is
    not part of the driver's file; "framing ∈ {Begin, End, Begin+End, None}".
    They are two distinct bits, or-ed by the driver. *)
Definition SPI_XFER_BEGIN : Z := 1.
Definition SPI_XFER_END : Z := 2.

(** Modelled from the spec: the device class and the capability mask of a
    RAM-like device ([linux/mtd/mtd.h], not part of the driver's file). *)
Definition MTD_RAM : Z := 1.
Definition MTD_CAP_RAM : Z := 0x1C00.

(** [unsigned int] is 32 bits wide: the width of [dm_spi_xfer]'s [bitlen]. *)
Definition UINT_MODULUS : Z := 2 ^ 32.

(** An [int] has 4 bytes. *)
Definition SIZEOF_INT : Z := 4.

(** ** Data *)

(** [struct mr25hxx_data] *)
Record mr25hxx_data := Mr25hxxData {
  data_size : Z;        (* .size *)
  addr_bytes : Z        (* .addr_bytes *)
}.

(** [struct udevice], as far as the driver looks into it: the identity of the
    device and the [compatible] string it was matched with. *)
Record udevice := Udevice {
  dev_id : nat;
  compatible : string
}.

(** The four functions the driver installs in a [struct mtd_info]. *)
Inductive entry_point :=
| ep_spi_mram_erase
| ep_spi_mram_read
| ep_spi_mram_write
| ep_spi_mram_sync.

(** [struct mtd_info], the fields the driver writes. *)
Record mtd_info := MtdInfo {
  mtd_name : string;
  mtd_type : Z;
  mtd_flags : Z;
  mtd_size : Z;
  mtd_writesize : Z;
  mtd_writebufsize : Z;
  mtd_numeraseregions : Z;
  mtd_erasesize : Z;
  mtd_priv : option udevice;
  mtd_erase : option entry_point;
  mtd_read : option entry_point;
  mtd_write : option entry_point;
  mtd_sync : option entry_point
}.

(** [struct erase_info] *)
Record erase_info := EraseInfo {
  ei_addr : Z;
  ei_len : Z
}.

(** A pointer to a [struct mtd_info] is the key of the object in the store. *)
Abbreviation mtd_ptr := nat (only parsing).

(** One call of [dm_spi_xfer], as issued by the driver, with its result. *)
Record spi_phase := SpiPhase {
  ph_dev : option udevice;
  ph_bitlen : Z;
  ph_dout : option (list Z);
  ph_din : bool;              (* was a receive buffer passed? *)
  ph_flags : Z;
  ph_result : Z
}.

(** One call into the MTD core, with its result. *)
Inductive mtd_event :=
| EvDel (mtd : mtd_ptr) (result : Z)
| EvAdd (mtd : mtd_ptr) (entry : mtd_info) (result : Z).

(** The bytes a phase puts on the wire: [bitlen] bits of the [dout] buffer. *)
Definition ph_sent (ph : spi_phase) : list Z :=
  match ph_dout ph with
  | Some b => take (Z.to_nat (ph_bitlen ph / 8)) b
  | None => []
  end.

(** ** The collaborators *)

(** Modelled from the spec: the collaborators of the driver, none of which is
    part of the driver's file, over a world [W] they act on: the SPI core
    ([dm_spi_claim_bus], [dm_spi_xfer]: "transfer(bit_length, tx, rx,
    framing) -> Result"), the MTD core ([add_mtd_device], [del_mtd_device])
    and the allocator ([kmalloc], [kfree]); with them the two constants of
    the build the driver reads, [CONFIG_IS_ENABLED(SPI_FLASH_MTD)] and the
    size of a pointer.  A transfer returns its result code and the contents
    of the receive buffer afterwards (of no meaning when none was passed);
    [kmalloc] returns the block as it is handed out, contents indeterminate,
    or [None] for a null pointer.

    The registry: "register(entry) -> Result<(), err>" and "unregister(entry)
    -> Result<(), err>".  A successful call adds, respectively removes, one
    entry of the device; a failed call leaves the registry as it was.
    [mtd_count w p] is the number of entries the registry holds for the
    object at [p]. *)
Class Platform (W : Type) := {
  CONFIG_SPI_FLASH_MTD : bool;
  sizeof_ptr : Z;
  dm_spi_claim_bus : udevice -> W -> Z * W;
  dm_spi_xfer : option udevice -> Z -> option (list Z) -> option (list Z) ->
                Z -> W -> Z * list Z * W;
  add_mtd_device : mtd_ptr -> mtd_info -> W -> Z * W;
  del_mtd_device : mtd_ptr -> mtd_info -> W -> Z * W;
  kmalloc : Z -> W -> option (list Z) * W;
  kfree : W -> W;
  mtd_count : W -> mtd_ptr -> nat;
  add_mtd_device_ok : forall p m w w',
    add_mtd_device p m w = (0, w') ->
    forall q, mtd_count w' q = (mtd_count w q + if decide (q = p) then 1 else 0)%nat;
  add_mtd_device_err : forall p m w w' r,
    add_mtd_device p m w = (r, w') -> r <> 0 ->
    forall q, mtd_count w' q = mtd_count w q;
  del_mtd_device_ok : forall p m w w',
    del_mtd_device p m w = (0, w') ->
    forall q, mtd_count w' q = (mtd_count w q - if decide (q = p) then 1 else 0)%nat;
  del_mtd_device_err : forall p m w w' r,
    del_mtd_device p m w = (r, w') -> r <> 0 ->
    forall q, mtd_count w' q = mtd_count w q
}.

(** ** The state of the driver *)

(** The file-scope variables [mram_mtd_registered] and [dev_data] (a pointer,
    [None] when null; [mram_mtd_name] is never assigned), the
    [struct mtd_info] objects in memory, the world of the collaborators, and
    the two logs of the calls made into them. *)
Record state (W : Type) := State {
  mram_mtd_registered : bool;
  dev_data : option mr25hxx_data;
  mtds : gmap mtd_ptr mtd_info;
  world : W;
  spi_log : list spi_phase;
  mtd_log : list mtd_event
}.
Arguments State {W}.
Arguments mram_mtd_registered {W}.
Arguments dev_data {W}.
Arguments mtds {W}.
Arguments world {W}.
Arguments spi_log {W}.
Arguments mtd_log {W}.

Definition mram_mtd_name : string := "mram0".

(** ** The monad: state, and a fault for undefined behaviour *)

Definition M (W A : Type) : Type := state W -> option (A * state W).

Definition ret {W A} (a : A) : M W A := fun s => Some (a, s).

Definition bind {W A B} (m : M W A) (k : A -> M W B) : M W B :=
  fun s => match m s with
           | Some (a, s') => k a s'
           | None => None
           end.

Definition fault {W A} : M W A := fun _ => None.

Declare Scope drv_scope.
Delimit Scope drv_scope with drv.
Notation "x <- m ;; k" := (bind m (fun x => k))
  (at level 100, m at next level, right associativity) : drv_scope.
Notation "m ;;; k" := (bind m (fun _ => k))
  (at level 100, right associativity) : drv_scope.
Local Open Scope drv_scope.

Section Driver.
Context {W : Type} {P : Platform W}.

(** *** Accesses to the state *)

Definition set_registered (b : bool) : M W unit := fun s =>
  Some (tt, State b (dev_data s) (mtds s) (world s) (spi_log s) (mtd_log s)).

Definition get_registered : M W bool := fun s =>
  Some (mram_mtd_registered s, s).

Definition set_dev_data (d : option mr25hxx_data) : M W unit := fun s =>
  Some (tt, State (mram_mtd_registered s) d (mtds s) (world s) (spi_log s)
                  (mtd_log s)).

(** [dev_data->...]: a null [dev_data] is a fault. *)
Definition deref_dev_data : M W mr25hxx_data := fun s =>
  match dev_data s with
  | Some d => Some (d, s)
  | None => None
  end.

(** [*mtd], read and written; a pointer to no object is a fault. *)
Definition load_mtd (mtd : mtd_ptr) : M W mtd_info := fun s =>
  match mtds s !! mtd with
  | Some m => Some (m, s)
  | None => None
  end.

Definition store_mtd (mtd : mtd_ptr) (m : mtd_info) : M W unit := fun s =>
  match mtds s !! mtd with
  | Some _ =>
      Some (tt, State (mram_mtd_registered s) (dev_data s)
                      (<[mtd := m]> (mtds s)) (world s) (spi_log s)
                      (mtd_log s))
  | None => None
  end.

(** *** Calls into the collaborators, logged *)

Definition spi_claim_bus (dev : udevice) : M W Z := fun s =>
  let '(r, w) := dm_spi_claim_bus dev (world s) in
  Some (r, State (mram_mtd_registered s) (dev_data s) (mtds s) w
                 (spi_log s) (mtd_log s)).

Definition spi_xfer (dev : option udevice) (bitlen : Z)
    (dout din : option (list Z)) (flags : Z) : M W (Z * list Z) := fun s =>
  let '(r, rx, w) := dm_spi_xfer dev bitlen dout din flags (world s) in
  Some ((r, rx),
        State (mram_mtd_registered s) (dev_data s) (mtds s) w
              (spi_log s ++ [SpiPhase dev bitlen dout
                                      (match din with Some _ => true | None => false end)
                                      flags r])
              (mtd_log s)).

Definition mtd_add (mtd : mtd_ptr) : M W Z := fun s =>
  match mtds s !! mtd with
  | Some m =>
      let '(r, w) := add_mtd_device mtd m (world s) in
      Some (r, State (mram_mtd_registered s) (dev_data s) (mtds s) w
                     (spi_log s) (mtd_log s ++ [EvAdd mtd m r]))
  | None => None
  end.

Definition mtd_del (mtd : mtd_ptr) : M W Z := fun s =>
  match mtds s !! mtd with
  | Some m =>
      let '(r, w) := del_mtd_device mtd m (world s) in
      Some (r, State (mram_mtd_registered s) (dev_data s) (mtds s) w
                     (spi_log s) (mtd_log s ++ [EvDel mtd r]))
  | None => None
  end.

Definition heap_kmalloc (n : Z) : M W (option (list Z)) := fun s =>
  let '(b, w) := kmalloc n (world s) in
  Some (b, State (mram_mtd_registered s) (dev_data s) (mtds s) w
                 (spi_log s) (mtd_log s)).

Definition heap_kfree : M W unit := fun s =>
  Some (tt, State (mram_mtd_registered s) (dev_data s) (mtds s)
                  (kfree (world s)) (spi_log s) (mtd_log s)).

(** [memset(buffer, c, n)] on a block: a null pointer, or a block shorter
    than [n] bytes, is a fault. *)
Definition memset (buffer : option (list Z)) (c n : Z) : M W (list Z) :=
  match buffer with
  | Some b =>
      if Z.of_nat (length b) <? n then fault
      else ret (replicate (Z.to_nat n) c ++ drop (Z.to_nat n) b)
  | None => fault
  end.

(** *** The address bytes

    The block that opens both [spi_mram_read] and [spi_mram_write]: the
    three-byte array [addr] and [addr_bits], or [None] where the source
    prints "Number of address bytes not supported" and returns -1. *)
Definition mram_addr (d : mr25hxx_data) (offset : Z) : option (list Z * Z) :=
  if addr_bytes d =? 3 then
    Some ([Z.land (Z.shiftr offset 16) 0xff;
           Z.land (Z.shiftr offset 8) 0xff;
           Z.land offset 0xff], 3 * 8)
  else if addr_bytes d =? 2 then
    Some ([Z.land (Z.shiftr offset 8) 0xff;
           Z.land offset 0xff;
           0x0], 2 * 8)
  else None.

(** *** spi_mram_read

    [retlen] and [buf] are what the caller's [*retlen] and [buf] hold at
    the call; the result carries what they hold at the return. *)
Definition spi_mram_read (mtd : mtd_ptr) (offset len : Z) (retlen : Z)
    (buf : list Z) : M W (Z * Z * list Z) :=
  let cmd_read := [0x03] in
  d <- deref_dev_data ;;
  match mram_addr d offset with
  | None => ret (-1, retlen, buf)
  | Some (addr, addr_bits) =>
      m <- load_mtd mtd ;;
      r1 <- spi_xfer (mtd_priv m) 8 (Some cmd_read) None SPI_XFER_BEGIN ;;
      r2 <- spi_xfer (mtd_priv m) addr_bits (Some addr) None 0 ;;
      r3 <- spi_xfer (mtd_priv m) ((8 * len) mod UINT_MODULUS) None
                     (Some buf) SPI_XFER_END ;;
      let result := fst r3 in
      if result =? 0 then ret (result, len, snd r3)
      else ret (result, retlen, snd r3)
  end.

(** *** spi_mram_write *)
Definition spi_mram_write (mtd : mtd_ptr) (offset len : Z) (retlen : Z)
    (buf : list Z) : M W (Z * Z) :=
  let cmd_write_enable := [0x06] in
  let cmd_write := [0x02] in
  d <- deref_dev_data ;;
  match mram_addr d offset with
  | None => ret (-1, retlen)
  | Some (addr, addr_bits) =>
      m <- load_mtd mtd ;;
      r1 <- spi_xfer (mtd_priv m) 8 (Some cmd_write_enable) None
                     (Z.lor SPI_XFER_BEGIN SPI_XFER_END) ;;
      r2 <- spi_xfer (mtd_priv m) 8 (Some cmd_write) None SPI_XFER_BEGIN ;;
      r3 <- spi_xfer (mtd_priv m) addr_bits (Some addr) None 0 ;;
      r4 <- spi_xfer (mtd_priv m) ((8 * len) mod UINT_MODULUS) (Some buf)
                     None SPI_XFER_END ;;
      let result := fst r4 in
      if result =? 0 then ret (result, len)
      else ret (result, retlen)
  end.


(** *** spi_mram_erase

    [instr->len] is converted to [size_t] for [kmalloc] and for
    [spi_mram_write]; [sizeof(buffer)] is the size of a pointer, and a
    [size_t] is as wide as a pointer.  The local [retlen] is an [int], not
    initialised and not read after the call, and [&retlen] is passed where
    [spi_mram_write] takes a [size_t *]: the write assigns [*retlen] exactly
    when it returns 0, and where a [size_t] is wider than an [int] that
    store runs over the [int], a fault. *)
Definition to_size_t (z : Z) : Z := z mod 2 ^ (8 * sizeof_ptr).

Definition spi_mram_erase (mtd : mtd_ptr) (instr : erase_info) : M W Z :=
  buffer <- heap_kmalloc (to_size_t (ei_len instr * 1)) ;;
  buffer <- memset buffer 0 sizeof_ptr ;;
  r <- spi_mram_write mtd (ei_addr instr) (to_size_t (ei_len instr)) 0 buffer ;;
  (if (fst r =? 0) && (SIZEOF_INT <? sizeof_ptr) then fault else ret tt) ;;;
  heap_kfree ;;;
  ret (fst r).

(** *** spi_mram_sync *)
Definition spi_mram_sync (mtd : mtd_ptr) : M W unit := ret tt.

(** *** spi_mram_mtd_register

    [mtd_fill] is the run of assignments to the fields of [*mtd], from
    [mtd->name = mram_mtd_name] to [mtd->erasesize = 1], with
    [dev_data->size] already read.  The first step of
    [spi_mram_mtd_register] is the [if (mram_mtd_registered)] block: [Some r]
    where it returns [r]. *)
Definition mtd_fill (d : mr25hxx_data) (m : mtd_info) : mtd_info :=
  {| mtd_name := mram_mtd_name;
     mtd_type := MTD_RAM;
     mtd_flags := MTD_CAP_RAM;
     mtd_erase := Some ep_spi_mram_erase;
     mtd_read := Some ep_spi_mram_read;
     mtd_write := Some ep_spi_mram_write;
     mtd_sync := Some ep_spi_mram_sync;
     mtd_size := data_size d;
     mtd_writesize := 1;
     mtd_writebufsize := 265;
     mtd_numeraseregions := 0;
     mtd_erasesize := 1;
     mtd_priv := mtd_priv m |}.

Definition spi_mram_mtd_register (mtd : mtd_ptr) : M W Z :=
  registered <- get_registered ;;
  early <- (if registered : bool then
              r <- mtd_del mtd ;;
              if r =? 0 then set_registered false ;;; ret None
              else ret (Some r)
            else ret None) ;;
  match early with
  | Some r => ret r
  | None =>
      set_registered false ;;;
      m <- load_mtd mtd ;;
      d <- deref_dev_data ;;
      store_mtd mtd (mtd_fill d m) ;;;
      r <- mtd_add mtd ;;
      (if r =? 0 then set_registered true else ret tt) ;;;
      ret r
  end.

(** [dev_get_uclass_priv(dev)]: the [struct mtd_info] of the device. *)
Definition dev_get_uclass_priv (dev : udevice) : mtd_ptr := dev_id dev.

Definition set_priv (priv : option udevice) (m : mtd_info) : mtd_info :=
  {| mtd_name := mtd_name m; mtd_type := mtd_type m; mtd_flags := mtd_flags m;
     mtd_size := mtd_size m; mtd_writesize := mtd_writesize m;
     mtd_writebufsize := mtd_writebufsize m;
     mtd_numeraseregions := mtd_numeraseregions m;
     mtd_erasesize := mtd_erasesize m; mtd_priv := priv;
     mtd_erase := mtd_erase m; mtd_read := mtd_read m;
     mtd_write := mtd_write m; mtd_sync := mtd_sync m |}.

(** *** spi_mram_mtd_unregister *)
Definition spi_mram_mtd_unregister (dev : udevice) : M W unit :=
  let mtd := dev_get_uclass_priv dev in
  registered <- get_registered ;;
  if negb registered then ret tt
  else
    r <- mtd_del mtd ;;
    if r =? 0 then set_registered false
    else m <- load_mtd mtd ;; store_mtd mtd (set_priv None m).

(** *** The variants *)
Definition mr25h40_data : mr25hxx_data := Mr25hxxData 0x80000 3.
Definition mr25h10_data : mr25hxx_data := Mr25hxxData 0x20000 3.
Definition mr25h256_data : mr25hxx_data := Mr25hxxData 0x8000 2.
Definition mr25h128_data : mr25hxx_data := Mr25hxxData 0x4000 2.

Definition spi_mram_ids : list (string * mr25hxx_data) :=
  [ ("mr25h40", mr25h40_data);
    ("mr25h10", mr25h10_data);
    ("mr25h256", mr25h256_data);
    ("mr25h128", mr25h128_data) ].

(** Modelled from the spec: [dev_get_driver_data] belongs to the driver model
    core, not to the driver's file.  The binding "supplies, per device
    instance, a geometry record selected from the fixed variant table keyed
    by a device-model string": the [.data] of the first entry whose
    [.compatible] is the device's, null when there is none. *)
Fixpoint of_match (ids : list (string * mr25hxx_data)) (c : string)
    : option mr25hxx_data :=
  match ids with
  | [] => None
  | (k, d) :: rest => if decide (k = c) then Some d else of_match rest c
  end.

Definition dev_get_driver_data (dev : udevice) : option mr25hxx_data :=
  of_match spi_mram_ids (compatible dev).

(** *** spi_mram_probe *)
Definition spi_mram_probe (dev : udevice) : M W Z :=
  let mtd := dev_get_uclass_priv dev in
  m <- load_mtd mtd ;;
  store_mtd mtd (set_priv (Some dev) m) ;;;
  result <- spi_claim_bus dev ;;
  if negb (result =? 0) then ret result
  else
    (* the debug() after the assignment is compiled out unless DEBUG is
       defined *)
    set_dev_data (dev_get_driver_data dev) ;;;
    if CONFIG_SPI_FLASH_MTD then spi_mram_mtd_register mtd
    else ret result.

(** *** spi_mram_remove *)
Definition spi_mram_remove (dev : udevice) : M W Z :=
  (if CONFIG_SPI_FLASH_MTD then spi_mram_mtd_unregister dev else ret tt) ;;;
  set_dev_data None ;;;
  ret 0.

End Driver.

(** ** A board to run the driver on *)

(** Modelled from the spec: the chip and the buses behind the collaborators,
    none of which is part of the driver's file.  The chip is "memory-like";
    a transaction is what lies between a phase with [SPI_XFER_BEGIN] and one
    with [SPI_XFER_END]; its first byte is the opcode (0x06 sets the
    write-enable latch, 0x03 reads, 0x02 writes when the latch is set), the
    next phase the big-endian address, the last the data; the latch
    "auto-resets after any write".  The result codes of the transfers, of
    the bus claims and of the registry calls are scripted, call by call (0
    once a script is used up); a transfer that fails leaves the chip alone.
    Fresh blocks of the allocator are at least 16 bytes, filled with the
    stale byte [b_stale]. *)
Inductive chip_mode :=
| Deselected
| Selected
| ReadAddr
| ReadData (a : Z)
| WriteAddr
| WriteData (a : Z)
| Ignoring.

Record board := Board {
  b_mem : list Z;
  b_wel : bool;
  b_mode : chip_mode;
  b_xfer_results : list Z;
  b_claim_results : list Z;
  b_add_results : list Z;
  b_del_results : list Z;
  b_count : mtd_ptr -> nat;
  b_stale : Z
}.

Definition be_decode (bytes : list Z) : Z :=
  fold_left (fun acc b => acc * 256 + b) bytes 0.

Definition mem_load (a : Z) (n : nat) (mem : list Z) : list Z :=
  take n (drop (Z.to_nat a) mem).

Definition mem_store (a : Z) (data mem : list Z) : list Z :=
  let i := Z.to_nat a in
  take (length mem)
       (take i mem ++ data ++ drop (i + length data) mem).

Definition chip_phase (n : nat) (dout din : option (list Z)) (b : board)
    (mode : chip_mode) : chip_mode * list Z * bool * list Z :=
  let rx0 := default [] din in
  match mode, dout, din with
  | Selected, Some (op :: _), _ =>
      if op =? 0x06 then (Ignoring, b_mem b, true, rx0)
      else if op =? 0x03 then (ReadAddr, b_mem b, b_wel b, rx0)
      else if op =? 0x02 then
        (if b_wel b then WriteAddr else Ignoring, b_mem b, b_wel b, rx0)
      else (Ignoring, b_mem b, b_wel b, rx0)
  | ReadAddr, Some bytes, _ =>
      (ReadData (be_decode (take n bytes)), b_mem b, b_wel b, rx0)
  | WriteAddr, Some bytes, _ =>
      (WriteData (be_decode (take n bytes)), b_mem b, b_wel b, rx0)
  | WriteData a, Some bytes, _ =>
      (WriteData (a + Z.of_nat n), mem_store a (take n bytes) (b_mem b),
       b_wel b, rx0)
  | ReadData a, None, Some _ =>
      (ReadData (a + Z.of_nat n), b_mem b, b_wel b, mem_load a n (b_mem b))
  | m, _, _ => (m, b_mem b, b_wel b, rx0)
  end.

Definition board_xfer (dev : option udevice) (bitlen : Z)
    (dout din : option (list Z)) (flags : Z) (b : board)
    : Z * list Z * board :=
  let r := hd 0 (b_xfer_results b) in
  let rest := tl (b_xfer_results b) in
  if negb (r =? 0) then
    (r, default [] din,
     Board (b_mem b) (b_wel b) (b_mode b) rest (b_claim_results b)
           (b_add_results b) (b_del_results b) (b_count b) (b_stale b))
  else
    let mode0 := if Z.testbit flags 0 then Selected else b_mode b in
    let '(mode1, mem1, wel1, rx) :=
      chip_phase (Z.to_nat (bitlen / 8)) dout din b mode0 in
    let ends := Z.testbit flags 1 in
    let wel2 := if ends then
                  match mode1 with WriteData _ => false | _ => wel1 end
                else wel1 in
    let mode2 := if ends then Deselected else mode1 in
    (0, rx,
     Board mem1 wel2 mode2 rest (b_claim_results b) (b_add_results b)
           (b_del_results b) (b_count b) (b_stale b)).

Definition board_claim (dev : udevice) (b : board) : Z * board :=
  (hd 0 (b_claim_results b),
   Board (b_mem b) (b_wel b) (b_mode b) (b_xfer_results b)
         (tl (b_claim_results b)) (b_add_results b) (b_del_results b)
         (b_count b) (b_stale b)).

Definition board_add (p : mtd_ptr) (m : mtd_info) (b : board) : Z * board :=
  let r := hd 0 (b_add_results b) in
  (r,
   Board (b_mem b) (b_wel b) (b_mode b) (b_xfer_results b)
         (b_claim_results b) (tl (b_add_results b)) (b_del_results b)
         (if r =? 0
          then fun q => if decide (q = p) then S (b_count b q) else b_count b q
          else b_count b)
         (b_stale b)).

Definition board_del (p : mtd_ptr) (m : mtd_info) (b : board) : Z * board :=
  let r := hd 0 (b_del_results b) in
  (r,
   Board (b_mem b) (b_wel b) (b_mode b) (b_xfer_results b)
         (b_claim_results b) (b_add_results b) (tl (b_del_results b))
         (if r =? 0
          then fun q => if decide (q = p) then pred (b_count b q)
                        else b_count b q
          else b_count b)
         (b_stale b)).

Definition board_kmalloc (n : Z) (b : board) : option (list Z) * board :=
  (Some (replicate (Z.to_nat (Z.max n 16)) (b_stale b)), b).

(** The board as a platform, for a build with or without
    [CONFIG_SPI_FLASH_MTD] and a pointer of [psz] bytes. *)
Definition board_platform (cfg : bool) (psz : Z) : Platform board.
Proof.
  refine {| CONFIG_SPI_FLASH_MTD := cfg;
            sizeof_ptr := psz;
            dm_spi_claim_bus := board_claim;
            dm_spi_xfer := board_xfer;
            add_mtd_device := board_add;
            del_mtd_device := board_del;
            kmalloc := board_kmalloc;
            kfree := fun b => b;
            mtd_count := b_count |}.
  - intros p m w w' H q. unfold board_add in H.
    injection H as Hr <-. simpl. rewrite Hr. simpl.
    destruct (decide (q = p)); lia.
  - intros p m w w' r H Hne q. unfold board_add in H.
    injection H as Hr <-. simpl. rewrite Hr.
    destruct (Z.eqb_spec r 0); [contradiction | reflexivity].
  - intros p m w w' H q. unfold board_del in H.
    injection H as Hr <-. simpl. rewrite Hr. simpl.
    destruct (decide (q = p)); lia.
  - intros p m w w' r H Hne q. unfold board_del in H.
    injection H as Hr <-. simpl. rewrite Hr.
    destruct (Z.eqb_spec r 0); [contradiction | reflexivity].
Defined.

(** A board with a chip of [n] cells holding [fill], nothing registered, and
    the given script for the transfers. *)
Definition board0 (n : nat) (fill stale : Z) (xfer_results : list Z) : board :=
  Board (replicate n fill) false Deselected xfer_results [] [] []
        (fun _ => 0%nat) stale.

(** The state at boot: the file-scope variables as initialised, one
    [struct mtd_info] per listed device, nothing logged. *)
Definition mtd_info0 : mtd_info :=
  MtdInfo "" 0 0 0 0 0 0 0 None None None None None.

Definition boot {W} (devs : list udevice) (w : W) : state W :=
  State false None
        (list_to_map (map (fun d => (dev_id d, mtd_info0)) devs))
        w [] [].

(** ** Observations on the log *)

(** A write-enable transaction: the opcode 0x06 alone, 8 bits, framed by both
    [SPI_XFER_BEGIN] and [SPI_XFER_END]. *)
Definition is_wren (p : spi_phase) : bool :=
  bool_decide (ph_dout p = Some [0x06]) && (ph_bitlen p =? 8) &&
  Z.testbit (ph_flags p) 0 && Z.testbit (ph_flags p) 1.

(** The flag and the registry agree on the object at [mtd]: at most one
    entry, and none while the flag is clear. *)
Definition registry_consistent {W} {P : Platform W} (mtd : mtd_ptr)
    (s : state W) : Prop :=
  (mtd_count (world s) mtd <= 1)%nat /\
  (mram_mtd_registered s = false -> mtd_count (world s) mtd = 0%nat).

(** A caller that issues one write after another; a request is the offset,
    the length and the data. *)
Fixpoint write_all {W} {P : Platform W} (mtd : mtd_ptr)
    (reqs : list (Z * Z * list Z)) : M W unit :=
  match reqs with
  | [] => ret tt
  | (offset, len, buf) :: rest =>
      _ <- spi_mram_write mtd offset len 0 buf ;;
      write_all mtd rest
  end.

(** The four phases of one write, for some results of the transfers. *)
Definition write_block (dev : option udevice) (d : mr25hxx_data)
    (req : Z * Z * list Z) (blk : list spi_phase) : Prop :=
  let '(offset, len, buf) := req in
  exists addr bits rA rB rC rD,
    mram_addr d offset = Some (addr, bits) /\
    blk = [ SpiPhase dev 8 (Some [0x06]) false
                     (Z.lor SPI_XFER_BEGIN SPI_XFER_END) rA;
            SpiPhase dev 8 (Some [0x02]) false SPI_XFER_BEGIN rB;
            SpiPhase dev bits (Some addr) false 0 rC;
            SpiPhase dev ((8 * len) mod UINT_MODULUS) (Some buf) false
                     SPI_XFER_END rD ].

(** ** Devices and states the statements are tried on *)

Definition dev_h40 : udevice := Udevice 1 "mr25h40".
Definition dev_h256 : udevice := Udevice 2 "mr25h256".

(** A 64-bit build with [CONFIG_SPI_FLASH_MTD]. *)
Definition P64 : Platform board := board_platform true 8.

(** A 32-bit build with [CONFIG_SPI_FLASH_MTD]. *)
Definition P32 : Platform board := board_platform true 4.

(** Both devices at boot, on a chip of 64 cells holding 0x55; fresh blocks
    of the allocator hold 0xAA. *)
Definition s_boot (xfer_results : list Z) : state board :=
  boot [dev_h40; dev_h256] (board0 64 0x55 0xAA xfer_results).

(** The state a probe leaves when [dev_data] points to [d] and the object of
    [dev] is bound to it. *)
Definition s_bound (dev : udevice) (d : mr25hxx_data) (registered : bool)
    (b : board) : state board :=
  State registered (Some d)
        {[ dev_id dev := set_priv (Some dev) mtd_info0 ]} b [] [].

(** A device bound to a geometry with four address bytes, which no entry of
    the table has. *)
Definition s_width4 : state board :=
  s_bound dev_h40 (Mr25hxxData 0x80000 4) false (board0 64 0x55 0xAA []).

(** The mr25h256 bound and registered: the registry holds its one entry. *)
Definition board_registered : board :=
  Board (replicate 64 0x55) false Deselected [] [] [] []
        (fun q => if decide (q = dev_id dev_h256) then 1%nat else 0%nat) 0xAA.

Definition s_registered : state board :=
  s_bound dev_h256 mr25h256_data true board_registered.

(** The mr25h256 bound, on a board whose transfers return the scripted
    results. *)
Definition s_h256 (xfer_results : list Z) : state board :=
  s_bound dev_h256 mr25h256_data true (board0 64 0x55 0xAA xfer_results).

(** Both devices at boot, then the mr25h40 probed. *)
Definition s_after_h40 : state board :=
  match spi_mram_probe (P := P64) dev_h40 (s_boot []) with
  | Some (_, s) => s
  | None => s_boot []
  end.

(** A board with scripted results for the bus claims and the registry calls,
    and the given registry. *)
Definition board_with (claims adds dels : list Z) (count : mtd_ptr -> nat)
    : board :=
  Board (replicate 64 0x55) false Deselected [] claims adds dels count 0xAA.

(** Both devices at boot, the next bus claim failing with -16. *)
Definition s_claim_fails : state board :=
  boot [dev_h40; dev_h256] (board_with [-16] [] [] (fun _ => 0%nat)).

(** The mr25h256 bound and registered, the next [del_mtd_device] failing
    with -16. *)
Definition s_del_fails : state board :=
  s_bound dev_h256 mr25h256_data true
    (board_with [] [] [-16]
       (fun q => if decide (q = dev_id dev_h256) then 1%nat else 0%nat)).

(** The mr25h256 bound, not registered, the registry empty. *)
Definition s_unregistered : state board :=
  s_bound dev_h256 mr25h256_data false
    (board_with [] [] [] (fun _ => 0%nat)).

(** Both devices at boot, the next [add_mtd_device] failing with -12. *)
Definition s_add_fails : state board :=
  boot [dev_h40; dev_h256] (board_with [] [-12] [] (fun _ => 0%nat)).

(** ** Properties *)

Section Properties.
Context {W : Type} {P : Platform W}.

Lemma mram_addr_supported (d : mr25hxx_data) (offset : Z) :
  addr_bytes d = 2 \/ addr_bytes d = 3 ->
  exists addr bits, mram_addr d offset = Some (addr, bits).
Proof.
  unfold mram_addr. intros [H | H]; rewrite H; simpl; eauto.
Qed.

Lemma mram_addr_unsupported (d : mr25hxx_data) (offset : Z) :
  addr_bytes d <> 2 -> addr_bytes d <> 3 -> mram_addr d offset = None.
Proof.
  intros H2 H3. unfold mram_addr.
  destruct (Z.eqb_spec (addr_bytes d) 3); [contradiction |].
  destruct (Z.eqb_spec (addr_bytes d) 2); [contradiction | reflexivity].
Qed.

(** What a read does once the address is built: three transfers, logged in
    order, and [*retlen] assigned when the last one returned 0. *)
Lemma read_run (s : state W) (d : mr25hxx_data) (m : mtd_info) (mtd : mtd_ptr)
    (offset len retlen : Z) (buf addr : list Z) (bits : Z) :
  dev_data s = Some d -> mtds s !! mtd = Some m ->
  mram_addr d offset = Some (addr, bits) ->
  exists r1 r2 r3 rx w',
    spi_mram_read mtd offset len retlen buf s =
    Some ((r3, (if r3 =? 0 then len else retlen), rx),
          State (mram_mtd_registered s) (dev_data s) (mtds s) w'
                (spi_log s ++
                 [ SpiPhase (mtd_priv m) 8 (Some [0x03]) false SPI_XFER_BEGIN r1;
                   SpiPhase (mtd_priv m) bits (Some addr) false 0 r2;
                   SpiPhase (mtd_priv m) ((8 * len) mod UINT_MODULUS) None
                            true SPI_XFER_END r3 ])
                (mtd_log s)).
Proof.
  intros Hd Hm Ha.
  unfold spi_mram_read, bind, deref_dev_data. rewrite Hd, Ha.
  unfold load_mtd. rewrite Hm. unfold spi_xfer. cbn [world spi_log].
  destruct (dm_spi_xfer (mtd_priv m) 8 _ _ _ (world s)) as [[r1 x1] w1].
  cbn [world spi_log].
  destruct (dm_spi_xfer (mtd_priv m) bits _ _ _ w1) as [[r2 x2] w2].
  cbn [world spi_log].
  destruct (dm_spi_xfer (mtd_priv m) _ None _ _ w2) as [[r3 x3] w3].
  exists r1, r2, r3, x3, w3. cbn.
  rewrite <- !app_assoc. cbn.
  destruct (r3 =? 0); unfold ret; rewrite ?Hd; reflexivity.
Qed.

(** The same for a write: four transfers. *)
Lemma write_run (s : state W) (d : mr25hxx_data) (m : mtd_info) (mtd : mtd_ptr)
    (offset len retlen : Z) (buf addr : list Z) (bits : Z) :
  dev_data s = Some d -> mtds s !! mtd = Some m ->
  mram_addr d offset = Some (addr, bits) ->
  exists rA rB rC rD w',
    spi_mram_write mtd offset len retlen buf s =
    Some ((rD, (if rD =? 0 then len else retlen)),
          State (mram_mtd_registered s) (dev_data s) (mtds s) w'
                (spi_log s ++
                 [ SpiPhase (mtd_priv m) 8 (Some [0x06]) false
                            (Z.lor SPI_XFER_BEGIN SPI_XFER_END) rA;
                   SpiPhase (mtd_priv m) 8 (Some [0x02]) false SPI_XFER_BEGIN rB;
                   SpiPhase (mtd_priv m) bits (Some addr) false 0 rC;
                   SpiPhase (mtd_priv m) ((8 * len) mod UINT_MODULUS)
                            (Some buf) false SPI_XFER_END rD ])
                (mtd_log s)).
Proof.
  intros Hd Hm Ha.
  unfold spi_mram_write, bind, deref_dev_data. rewrite Hd, Ha.
  unfold load_mtd. rewrite Hm. unfold spi_xfer. cbn [world spi_log].
  destruct (dm_spi_xfer (mtd_priv m) 8 _ _ _ (world s)) as [[rA xA] wA].
  cbn [world spi_log].
  destruct (dm_spi_xfer (mtd_priv m) 8 _ _ _ wA) as [[rB xB] wB].
  cbn [world spi_log].
  destruct (dm_spi_xfer (mtd_priv m) bits _ _ _ wB) as [[rC xC] wC].
  cbn [world spi_log].
  destruct (dm_spi_xfer (mtd_priv m) _ (Some buf) _ _ wC) as [[rD xD] wD].
  exists rA, rB, rC, rD, wD. cbn.
  rewrite <- !app_assoc. cbn.
  destruct (rD =? 0); unfold ret; rewrite ?Hd; reflexivity.
Qed.

(** With an address width that is neither 2 nor 3 a read is over before any
    transfer: it returns -1 and nothing has changed. *)
Lemma read_unsupported (s : state W) (d : mr25hxx_data) (mtd : mtd_ptr)
    (offset len retlen : Z) (buf : list Z) :
  dev_data s = Some d -> addr_bytes d <> 2 -> addr_bytes d <> 3 ->
  spi_mram_read mtd offset len retlen buf s = Some ((-1, retlen, buf), s).
Proof.
  intros Hd H2 H3. unfold spi_mram_read, bind, deref_dev_data.
  rewrite Hd, (mram_addr_unsupported d offset H2 H3). reflexivity.
Qed.

Lemma write_unsupported (s : state W) (d : mr25hxx_data) (mtd : mtd_ptr)
    (offset len retlen : Z) (buf : list Z) :
  dev_data s = Some d -> addr_bytes d <> 2 -> addr_bytes d <> 3 ->
  spi_mram_write mtd offset len retlen buf s = Some ((-1, retlen), s).
Proof.
  intros Hd H2 H3. unfold spi_mram_write, bind, deref_dev_data.
  rewrite Hd, (mram_addr_unsupported d offset H2 H3). reflexivity.
Qed.

(** Masking and shifting by whole bytes reads as division and remainder. *)
Lemma byte_of_offset (offset : Z) (k : Z) :
  0 <= k -> Z.land (Z.shiftr offset k) 0xff = (offset / 2 ^ k) mod 256.
Proof.
  intros Hk. rewrite Z.shiftr_div_pow2 by assumption.
  change 0xff with (Z.ones 8). rewrite Z.land_ones by lia. reflexivity.
Qed.

Lemma low_byte_of_offset (offset : Z) : Z.land offset 0xff = offset mod 256.
Proof.
  change 0xff with (Z.ones 8). rewrite Z.land_ones by lia. reflexivity.
Qed.

(** C3: a read or a write made while the configured address width is neither
    2 nor 3 fails, with a result that is not 0, and issues no transfer: the
    log of bus phases is as it was, and so is the whole state, the world of
    the bus and of the device included. *)
Theorem unsupported_width_aborts (s : state W) (d : mr25hxx_data)
    (mtd : mtd_ptr) (offset len retlen : Z) (buf : list Z) :
  dev_data s = Some d -> addr_bytes d <> 2 -> addr_bytes d <> 3 ->
  (exists r retlen' buf' s',
      spi_mram_read mtd offset len retlen buf s = Some ((r, retlen', buf'), s') /\
      r <> 0 /\ spi_log s' = spi_log s /\ world s' = world s /\ s' = s) /\
  (exists r retlen' s',
      spi_mram_write mtd offset len retlen buf s = Some ((r, retlen'), s') /\
      r <> 0 /\ spi_log s' = spi_log s /\ world s' = world s /\ s' = s).
Proof.
  intros Hd H2 H3. split.
  - exists (-1), retlen, buf, s.
    rewrite (read_unsupported s d mtd offset len retlen buf Hd H2 H3).
    repeat split; lia.
  - exists (-1), retlen, s.
    rewrite (write_unsupported s d mtd offset len retlen buf Hd H2 H3).
    repeat split; lia.
Qed.

(** C4: the address a read and a write send is the offset in big-endian
    order.  With a width of 3 the address phase (the second of a read, the
    third of a write) carries 24 bits, the bytes [(offset>>16)&0xFF],
    [(offset>>8)&0xFF], [offset&0xFF]; with a width of 2 it carries 16 bits,
    the bytes [(offset>>8)&0xFF], [offset&0xFF].  Read back most significant
    byte first, the bytes are the offset modulo 2^24, respectively 2^16; and
    0x010203 gives 01 02 03, 0x1234 gives 12 34. *)
Theorem address_is_big_endian (s : state W) (d : mr25hxx_data) (m : mtd_info)
    (mtd : mtd_ptr) (offset len retlen : Z) (buf : list Z) :
  dev_data s = Some d -> mtds s !! mtd = Some m ->
  addr_bytes d = 2 \/ addr_bytes d = 3 ->
  let sent := if addr_bytes d =? 3
              then [Z.land (Z.shiftr offset 16) 0xff;
                    Z.land (Z.shiftr offset 8) 0xff;
                    Z.land offset 0xff]
              else [Z.land (Z.shiftr offset 8) 0xff; Z.land offset 0xff] in
  let bits := if addr_bytes d =? 3 then 24 else 16 in
  (exists out s' p1 p2 p3,
      spi_mram_read mtd offset len retlen buf s = Some (out, s') /\
      spi_log s' = spi_log s ++ [p1; p2; p3] /\
      ph_sent p2 = sent /\ ph_bitlen p2 = bits) /\
  (exists out s' p1 p2 p3 p4,
      spi_mram_write mtd offset len retlen buf s = Some (out, s') /\
      spi_log s' = spi_log s ++ [p1; p2; p3; p4] /\
      ph_sent p3 = sent /\ ph_bitlen p3 = bits) /\
  be_decode sent = offset mod 2 ^ bits /\
  (offset = 0x010203 -> addr_bytes d = 3 -> sent = [0x01; 0x02; 0x03]) /\
  (offset = 0x1234 -> addr_bytes d = 2 -> sent = [0x12; 0x34]).
Proof.
  intros Hd Hm Hw sent bits.
  assert (Ha : exists addr, mram_addr d offset = Some (addr, bits) /\
                            take (Z.to_nat (bits / 8)) addr = sent).
  { unfold mram_addr, sent, bits.
    destruct Hw as [Hw | Hw]; rewrite Hw; cbn; eauto. }
  destruct Ha as (addr & Ha & Hsent).
  repeat split.
  - destruct (read_run s d m mtd offset len retlen buf addr bits Hd Hm Ha)
      as (r1 & r2 & r3 & rx & w' & Hrun).
    rewrite Hrun. do 5 eexists. split; [reflexivity |].
    split; [reflexivity |]. split; [exact Hsent | reflexivity].
  - destruct (write_run s d m mtd offset len retlen buf addr bits Hd Hm Ha)
      as (rA & rB & rC & rD & w' & Hrun).
    rewrite Hrun. do 6 eexists. split; [reflexivity |].
    split; [reflexivity |]. split; [exact Hsent | reflexivity].
  - unfold sent, bits, be_decode.
    destruct Hw as [Hw | Hw]; rewrite Hw; cbn [Z.eqb Pos.eqb fold_left];
      rewrite ?byte_of_offset, ?low_byte_of_offset by lia;
      change (2 ^ 16) with 65536; change (2 ^ 8) with 256;
      change (2 ^ 24) with 16777216;
      Z.div_mod_to_equations; lia.
  - intros -> H3. unfold sent. rewrite H3. reflexivity.
  - intros -> H2. unfold sent. rewrite H2. reflexivity.
Qed.

(** C5, as amended: a read with an unsupported address width returns -1 at
    once, before any transfer, and does not assign [*retlen]: the caller
    finds in it the value it held at the call, which is 0 when the caller had
    put 0 there. *)
Theorem read_unsupported_keeps_retlen (s : state W) (d : mr25hxx_data)
    (mtd : mtd_ptr) (offset len retlen : Z) (buf : list Z) :
  dev_data s = Some d -> addr_bytes d <> 2 -> addr_bytes d <> 3 ->
  exists retlen' s',
    spi_mram_read mtd offset len retlen buf s = Some ((-1, retlen', buf), s') /\
    spi_log s' = spi_log s /\
    retlen' = retlen /\
    (retlen = 0 -> retlen' = 0).
Proof.
  intros Hd H2 H3. exists retlen, s.
  rewrite (read_unsupported s d mtd offset len retlen buf Hd H2 H3).
  repeat split; auto.
Qed.

(** C7: with the geometry of the mr25h256 (size 0x8000, two address bytes) a
    read of 16 bytes at offset 0 issues three phases, in this order: 8 bits,
    the opcode 0x03, with [SPI_XFER_BEGIN]; 16 bits, the address bytes 00 00,
    with no flag; 128 bits received into the buffer, with [SPI_XFER_END].
    When the transport succeeds the call returns 0 and [*retlen] is 16. *)
Theorem read_h256_scenario (s : state W) (m : mtd_info) (mtd : mtd_ptr)
    (retlen : Z) (buf : list Z) :
  dev_data s = Some mr25h256_data -> mtds s !! mtd = Some m ->
  data_size mr25h256_data = 0x8000 /\ addr_bytes mr25h256_data = 2 /\
  exists r1 r2 r3 result retlen' buf' s' p1 p2 p3,
    spi_mram_read mtd 0 16 retlen buf s = Some ((result, retlen', buf'), s') /\
    spi_log s' = spi_log s ++ [p1; p2; p3] /\
    p1 = SpiPhase (mtd_priv m) 8 (Some [0x03]) false SPI_XFER_BEGIN r1 /\
    ph_bitlen p2 = 16 /\ ph_sent p2 = [0x00; 0x00] /\ ph_din p2 = false /\
    ph_flags p2 = 0 /\ ph_result p2 = r2 /\ ph_dev p2 = mtd_priv m /\
    p3 = SpiPhase (mtd_priv m) 128 None true SPI_XFER_END r3 /\
    (r1 = 0 -> r2 = 0 -> r3 = 0 -> result = 0 /\ retlen' = 16).
Proof.
  intros Hd Hm. split; [reflexivity |]. split; [reflexivity |].
  destruct (read_run s mr25h256_data m mtd 0 16 retlen buf [0; 0; 0] 16 Hd Hm
              eq_refl) as (r1 & r2 & r3 & rx & w' & Hrun).
  rewrite Hrun. exists r1, r2, r3. do 7 eexists.
  split; [reflexivity |]. split; [reflexivity |].
  do 8 (split; [reflexivity |]).
  intros _ _ ->. split; reflexivity.
Qed.

(** *** Writes *)

Lemma write_block_wren (dev : option udevice) (d : mr25hxx_data)
    (req : Z * Z * list Z) (blk : list spi_phase) :
  write_block dev d req blk ->
  (exists pA rest, blk = pA :: rest /\ is_wren pA = true /\
                   List.filter is_wren rest = []) /\
  length blk = 4%nat.
Proof.
  destruct req as [[offset len] buf].
  intros (addr & bits & rA & rB & rC & rD & Ha & ->).
  split; [| reflexivity].
  eexists _, _. split; [reflexivity |]. split; [reflexivity |].
  unfold is_wren. cbn [List.filter ph_flags ph_dout ph_bitlen].
  change (Z.testbit SPI_XFER_BEGIN 1) with false.
  change (Z.testbit SPI_XFER_END 0) with false.
  change (Z.testbit 0 0) with false.
  rewrite !andb_false_r. cbn. rewrite ?andb_false_r. reflexivity.
Qed.

(** C6: every write made with a supported address width opens with one
    write-enable transaction, the opcode 0x06 in a transfer of 8 bits framed
    by [SPI_XFER_BEGIN | SPI_XFER_END], ahead of the transaction that carries
    the opcode 0x02 (with [SPI_XFER_BEGIN]), the address (no flag) and the
    data (with [SPI_XFER_END]).  For any run of writes, one after another,
    the log grows by one such block of four phases per call, whatever the
    transfers return; each block starts with the write-enable transaction and
    holds no other. *)
Theorem write_enable_before_every_write (reqs : list (Z * Z * list Z))
    (s : state W) (d : mr25hxx_data) (m : mtd_info) (mtd : mtd_ptr) :
  dev_data s = Some d -> addr_bytes d = 2 \/ addr_bytes d = 3 ->
  mtds s !! mtd = Some m ->
  exists s' blocks,
    write_all mtd reqs s = Some (tt, s') /\
    spi_log s' = spi_log s ++ concat blocks /\
    Forall2 (write_block (mtd_priv m) d) reqs blocks /\
    Forall (fun blk =>
              (exists pA rest, blk = pA :: rest /\ is_wren pA = true /\
                               List.filter is_wren rest = []) /\
              length (List.filter is_wren blk) = 1%nat) blocks.
Proof.
  intros Hd Hw. revert s Hd.
  induction reqs as [| [[offset len] buf] rest IH]; intros s Hd Hm.
  - exists s, []. cbn. rewrite app_nil_r. repeat split; constructor.
  - destruct (mram_addr_supported d offset Hw) as (addr & bits & Ha).
    destruct (write_run s d m mtd offset len 0 buf addr bits Hd Hm Ha)
      as (rA & rB & rC & rD & w' & Hrun).
    cbn [write_all]. unfold bind at 1. rewrite Hrun.
    match goal with
    | |- context [write_all mtd rest ?s1] =>
        destruct (IH s1 Hd Hm) as (s' & blocks & Hall & Hlog & Hshape & Hwren)
    end.
    rewrite Hall. eexists s', (_ :: blocks).
    split; [reflexivity |]. split.
    { rewrite Hlog. cbn [spi_log concat]. rewrite <- app_assoc. reflexivity. }
    assert (Hblk : write_block (mtd_priv m) d (offset, len, buf)
              [ SpiPhase (mtd_priv m) 8 (Some [0x06]) false
                         (Z.lor SPI_XFER_BEGIN SPI_XFER_END) rA;
                SpiPhase (mtd_priv m) 8 (Some [0x02]) false SPI_XFER_BEGIN rB;
                SpiPhase (mtd_priv m) bits (Some addr) false 0 rC;
                SpiPhase (mtd_priv m) ((8 * len) mod UINT_MODULUS) (Some buf)
                         false SPI_XFER_END rD ]).
    { exists addr, bits, rA, rB, rC, rD. split; [exact Ha | reflexivity]. }
    split; [constructor; assumption |].
    constructor; [| assumption].
    destruct (write_block_wren _ _ _ _ Hblk) as [(pA & tl & Heq & HA & Htl) _].
    split; [eauto |].
    rewrite Heq. cbn [List.filter]. rewrite HA, Htl. reflexivity.
Qed.

(** *** Registration *)

(** The two ways through [spi_mram_mtd_register]: it returns from the
    [if (mram_mtd_registered)] block with the error of [del_mtd_device], or it
    fills the object in and hands it to [add_mtd_device]. *)
Lemma register_run (s : state W) (d : mr25hxx_data) (m : mtd_info)
    (mtd : mtd_ptr) :
  mtds s !! mtd = Some m -> dev_data s = Some d ->
  (exists rd w1,
      mram_mtd_registered s = true /\
      del_mtd_device mtd m (world s) = (rd, w1) /\ rd <> 0 /\
      spi_mram_mtd_register mtd s =
      Some (rd, State true (dev_data s) (mtds s) w1 (spi_log s)
                      (mtd_log s ++ [EvDel mtd rd])))
  \/
  (exists w1 pre ra w2,
      ((mram_mtd_registered s = true /\
        del_mtd_device mtd m (world s) = (0, w1) /\ pre = [EvDel mtd 0]) \/
       (mram_mtd_registered s = false /\ w1 = world s /\ pre = [])) /\
      add_mtd_device mtd (mtd_fill d m) w1 = (ra, w2) /\
      spi_mram_mtd_register mtd s =
      Some (ra, State (ra =? 0) (dev_data s)
                      (<[mtd := mtd_fill d m]> (mtds s)) w2 (spi_log s)
                      (mtd_log s ++ pre ++ [EvAdd mtd (mtd_fill d m) ra]))).
Proof.
  intros Hm Hd.
  unfold spi_mram_mtd_register, bind, get_registered.
  destruct (mram_mtd_registered s) eqn:Hreg.
  - unfold mtd_del. rewrite Hm.
    destruct (del_mtd_device mtd m (world s)) as [rd w1] eqn:Hdel.
    destruct (Z.eqb_spec rd 0) as [-> | Hne].
    + right.
      destruct (add_mtd_device mtd (mtd_fill d m) w1) as [ra w2] eqn:Hadd.
      exists w1, [EvDel mtd 0], ra, w2.
      split; [left; auto |]. split; [exact Hadd |].
      cbn. unfold load_mtd, deref_dev_data, store_mtd, mtd_add. cbn.
      rewrite Hm, Hd. cbn. rewrite Hm. cbn.
      rewrite lookup_insert_eq, Hadd.
      rewrite <- app_assoc.
      destruct (ra =? 0); reflexivity.
    + left. exists rd, w1. cbn. unfold ret. rewrite Hreg. auto.
  - right.
    destruct (add_mtd_device mtd (mtd_fill d m) (world s)) as [ra w2] eqn:Hadd.
    exists (world s), [], ra, w2.
    split; [right; auto |]. split; [exact Hadd |].
    cbn. unfold load_mtd, deref_dev_data, store_mtd, mtd_add. cbn.
    rewrite Hm, Hd. cbn. rewrite Hm. cbn.
    rewrite lookup_insert_eq, Hadd.
    destruct (ra =? 0); reflexivity.
Qed.

(** Registering keeps the flag and the registry in agreement, whether the
    flag was set or not: registering twice in a row leaves one entry. *)
Lemma register_keeps_consistent (s : state W) (d : mr25hxx_data)
    (m : mtd_info) (mtd : mtd_ptr) :
  mtds s !! mtd = Some m -> dev_data s = Some d ->
  registry_consistent mtd s ->
  exists r s',
    spi_mram_mtd_register mtd s = Some (r, s') /\
    registry_consistent mtd s' /\
    dev_data s' = Some d /\ is_Some (mtds s' !! mtd).
Proof.
  intros Hm Hd [Hle Hclear]. unfold registry_consistent.
  destruct (register_run s d m mtd Hm Hd)
    as [(rd & w1 & Hreg & Hdel & Hne & Hrun)
       | (w1 & pre & ra & w2 & Hpre & Hadd & Hrun)];
    rewrite Hrun; eexists _, _; (split; [reflexivity |]); cbn.
  - pose proof (del_mtd_device_err _ _ _ _ _ Hdel Hne mtd) as Hsame.
    rewrite Hsame. repeat split; eauto; discriminate.
  - assert (Hzero : mtd_count w1 mtd = 0%nat).
    { destruct Hpre as [(_ & Hdel & _) | (Hfalse & -> & _)]; [| auto].
      pose proof (del_mtd_device_ok _ _ _ _ Hdel mtd) as Hz.
      destruct (decide (mtd = mtd)); [lia | contradiction]. }
    rewrite lookup_insert_eq.
    destruct (Z.eqb_spec ra 0) as [-> | Hne].
    + pose proof (add_mtd_device_ok _ _ _ _ Hadd mtd) as Ha.
      destruct (decide (mtd = mtd)); [| contradiction].
      repeat split; eauto; [lia | discriminate].
    + pose proof (add_mtd_device_err _ _ _ _ _ Hadd Hne mtd) as Ha.
      repeat split; eauto; lia.
Qed.

(** C8: when the driver registers while [mram_mtd_registered] is set, it
    first asks the MTD core to delete the stale entry.  If that fails, it
    returns the error and installs nothing.  If it succeeds, the registry
    holds no entry of the device at that point, the flag is cleared, and only
    then [add_mtd_device] is called; the flag is set again exactly when that
    call returned 0.  A device with at most one entry before the call has at
    most one after it. *)
Theorem register_removes_stale_entry_first (s : state W) (d : mr25hxx_data)
    (m : mtd_info) (mtd : mtd_ptr) :
  mtds s !! mtd = Some m -> dev_data s = Some d ->
  mram_mtd_registered s = true ->
  (mtd_count (world s) mtd <= 1)%nat ->
  exists r s',
    spi_mram_mtd_register mtd s = Some (r, s') /\
    (mtd_count (world s') mtd <= 1)%nat /\
    ((exists w1,
         del_mtd_device mtd m (world s) = (r, w1) /\ r <> 0 /\
         mtd_log s' = mtd_log s ++ [EvDel mtd r] /\
         mram_mtd_registered s' = true /\
         mtd_count (world s') mtd = mtd_count (world s) mtd)
     \/
     (exists w1 e,
         del_mtd_device mtd m (world s) = (0, w1) /\
         mtd_count w1 mtd = 0%nat /\
         add_mtd_device mtd e w1 = (r, world s') /\
         mtd_log s' = mtd_log s ++ [EvDel mtd 0; EvAdd mtd e r] /\
         mram_mtd_registered s' = (r =? 0) /\
         mtd_count (world s') mtd = if r =? 0 then 1%nat else 0%nat)).
Proof.
  intros Hm Hd Hreg Hcnt.
  destruct (register_run s d m mtd Hm Hd)
    as [(rd & w1 & _ & Hdel & Hne & Hrun)
       | (w1 & pre & ra & w2 & Hpre & Hadd & Hrun)].
  - exists rd. eexists. split; [exact Hrun |]. cbn.
    pose proof (del_mtd_device_err _ _ _ _ _ Hdel Hne mtd) as Hsame.
    split; [lia |]. left. exists w1. auto.
  - destruct Hpre as [(_ & Hdel & ->) | (Hfalse & _)]; [| congruence].
    exists ra. eexists. split; [exact Hrun |]. cbn.
    pose proof (del_mtd_device_ok _ _ _ _ Hdel mtd) as Hz.
    destruct (decide (mtd = mtd)) as [_ | Hn]; [| contradiction].
    assert (Hzero : mtd_count w1 mtd = 0%nat) by lia.
    assert (Hafter : mtd_count w2 mtd = if ra =? 0 then 1%nat else 0%nat).
    { destruct (Z.eqb_spec ra 0) as [-> | Hne].
      - pose proof (add_mtd_device_ok _ _ _ _ Hadd mtd) as Ha.
        destruct (decide (mtd = mtd)) as [_ | Hn]; [lia | contradiction].
      - pose proof (add_mtd_device_err _ _ _ _ _ Hadd Hne mtd). lia. }
    split; [rewrite Hafter; destruct (ra =? 0); lia |].
    right. exists w1, (mtd_fill d m). auto 10.
Qed.

(** *** Probe and remove *)

(** The table, read entry by entry. *)
Lemma driver_data_cases (dev : udevice) (g : mr25hxx_data) :
  dev_get_driver_data dev = Some g ->
  (compatible dev = "mr25h40" /\ g = Mr25hxxData 0x80000 3) \/
  (compatible dev = "mr25h10" /\ g = Mr25hxxData 0x20000 3) \/
  (compatible dev = "mr25h256" /\ g = Mr25hxxData 0x8000 2) \/
  (compatible dev = "mr25h128" /\ g = Mr25hxxData 0x4000 2).
Proof.
  unfold dev_get_driver_data, spi_mram_ids, of_match.
  repeat (case_decide; [intros [= <-]; subst; auto 10 |]).
  discriminate.
Qed.

Lemma driver_data_supported (dev : udevice) (g : mr25hxx_data) :
  dev_get_driver_data dev = Some g -> addr_bytes g = 2 \/ addr_bytes g = 3.
Proof.
  intros H. destruct (driver_data_cases dev g H)
    as [[_ ->] | [[_ ->] | [[_ ->] | [_ ->]]]]; cbn; auto.
Qed.

(** A probe whose bus claim succeeds: [mtd->priv] and [dev_data] are set,
    then the object is registered when the build has the MTD layer. *)
Lemma probe_run (s : state W) (dev : udevice) (m : mtd_info) (w1 : W) :
  mtds s !! dev_id dev = Some m ->
  dm_spi_claim_bus dev (world s) = (0, w1) ->
  spi_mram_probe dev s =
  (if CONFIG_SPI_FLASH_MTD
   then spi_mram_mtd_register (dev_id dev)
   else ret 0)
    (State (mram_mtd_registered s) (dev_get_driver_data dev)
           (<[dev_id dev := set_priv (Some dev) m]> (mtds s)) w1
           (spi_log s) (mtd_log s)).
Proof.
  intros Hm Hclaim.
  unfold spi_mram_probe, bind, load_mtd, store_mtd, spi_claim_bus,
    dev_get_uclass_priv, set_dev_data.
  cbv zeta beta. rewrite Hm. cbn. rewrite ?Hm. cbn. rewrite Hclaim. cbn.
  destruct CONFIG_SPI_FLASH_MTD; reflexivity.
Qed.

Lemma probe_claimed (s : state W) (dev : udevice) (m : mtd_info)
    (g : mr25hxx_data) (w1 : W) :
  mtds s !! dev_id dev = Some m ->
  dev_get_driver_data dev = Some g ->
  dm_spi_claim_bus dev (world s) = (0, w1) ->
  exists r s',
    spi_mram_probe dev s = Some (r, s') /\
    dev_data s' = Some g /\
    spi_log s' = spi_log s /\
    (forall q, q <> dev_id dev -> mtds s' !! q = mtds s !! q).
Proof.
  intros Hm Hg Hclaim. rewrite (probe_run s dev m w1 Hm Hclaim).
  destruct CONFIG_SPI_FLASH_MTD.
  - match goal with
    | |- context [spi_mram_mtd_register _ ?s1] =>
        destruct (register_run s1 g (set_priv (Some dev) m) (dev_id dev))
          as [(rd & w2 & _ & _ & _ & Hrun)
             | (w2 & pre & ra & w3 & _ & _ & Hrun)];
        [apply lookup_insert_eq | exact Hg | |]
    end; rewrite Hrun; eexists _, _; (split; [reflexivity |]); cbn;
      (split; [exact Hg |]); (split; [reflexivity |]);
      intros q Hq; rewrite ?lookup_insert_ne by congruence; reflexivity.
  - eexists _, _. split; [reflexivity |]. cbn.
    split; [exact Hg |]. split; [reflexivity |].
    intros q Hq. rewrite lookup_insert_ne by congruence. reflexivity.
Qed.

Lemma remove_run (s : state W) (dev : udevice) (m : mtd_info) :
  mtds s !! dev_id dev = Some m ->
  exists s', spi_mram_remove dev s = Some (0, s') /\ dev_data s' = None.
Proof.
  intros Hm.
  unfold spi_mram_remove, spi_mram_mtd_unregister, bind, get_registered,
    dev_get_uclass_priv, set_dev_data.
  destruct CONFIG_SPI_FLASH_MTD; [| eexists; split; reflexivity].
  destruct (mram_mtd_registered s); cbn; [| eexists; split; reflexivity].
  unfold mtd_del. rewrite Hm.
  destruct (del_mtd_device (dev_id dev) m (world s)) as [rd w1].
  destruct (rd =? 0); cbn; [eexists; split; reflexivity |].
  unfold load_mtd, store_mtd. cbn. rewrite Hm. cbn. rewrite Hm.
  eexists; split; reflexivity.
Qed.

(** C9: the table of variants gives mr25h40 the size 0x80000 and 3 address
    bytes, mr25h10 0x20000 and 3, mr25h256 0x8000 and 2, mr25h128 0x4000 and
    2, and nothing else matches.  When a device of one of these models is
    probed (the bus claim succeeds, the build has the MTD layer), the object
    the driver hands to [add_mtd_device] carries the size of that variant,
    write size 1, erase size 1, the type [MTD_RAM], the flags [MTD_CAP_RAM],
    the name "mram0" and the four entry points; the call installs nothing
    only when the deletion of a stale entry failed. *)
Theorem variant_geometry_reaches_registry (s : state W) (dev : udevice)
    (m : mtd_info) (g : mr25hxx_data) (w1 : W) :
  mtds s !! dev_id dev = Some m ->
  dev_get_driver_data dev = Some g ->
  dm_spi_claim_bus dev (world s) = (0, w1) ->
  CONFIG_SPI_FLASH_MTD = true ->
  (of_match spi_mram_ids "mr25h40" = Some (Mr25hxxData 0x80000 3) /\
   of_match spi_mram_ids "mr25h10" = Some (Mr25hxxData 0x20000 3) /\
   of_match spi_mram_ids "mr25h256" = Some (Mr25hxxData 0x8000 2) /\
   of_match spi_mram_ids "mr25h128" = Some (Mr25hxxData 0x4000 2)) /\
  ((compatible dev = "mr25h40" /\ g = Mr25hxxData 0x80000 3) \/
   (compatible dev = "mr25h10" /\ g = Mr25hxxData 0x20000 3) \/
   (compatible dev = "mr25h256" /\ g = Mr25hxxData 0x8000 2) \/
   (compatible dev = "mr25h128" /\ g = Mr25hxxData 0x4000 2)) /\
  exists r s',
    spi_mram_probe dev s = Some (r, s') /\
    ((mram_mtd_registered s = true /\ r <> 0 /\
      mtd_log s' = mtd_log s ++ [EvDel (dev_id dev) r])
     \/
     (exists e pre,
         mtd_log s' = mtd_log s ++ pre ++ [EvAdd (dev_id dev) e r] /\
         mtds s' !! dev_id dev = Some e /\
         mtd_size e = data_size g /\
         mtd_writesize e = 1 /\ mtd_erasesize e = 1 /\
         mtd_type e = MTD_RAM /\ mtd_flags e = MTD_CAP_RAM /\
         mtd_name e = "mram0"%string /\
         mtd_read e = Some ep_spi_mram_read /\
         mtd_write e = Some ep_spi_mram_write /\
         mtd_erase e = Some ep_spi_mram_erase /\
         mtd_sync e = Some ep_spi_mram_sync)).
Proof.
  intros Hm Hg Hclaim Hcfg.
  split; [repeat split |]. split; [exact (driver_data_cases dev g Hg) |].
  rewrite (probe_run s dev m w1 Hm Hclaim), Hcfg.
  match goal with
  | |- context [spi_mram_mtd_register _ ?s1] =>
      destruct (register_run s1 g (set_priv (Some dev) m) (dev_id dev))
        as [(rd & w2 & Hreg & _ & Hne & Hrun)
           | (w2 & pre & ra & w3 & _ & _ & Hrun)];
      [apply lookup_insert_eq | exact Hg | |]
  end; rewrite Hrun; eexists _, _; (split; [reflexivity |]); cbn.
  - left. cbn in Hreg. auto.
  - right. eexists _, pre. split; [reflexivity |].
    split; [apply lookup_insert_eq |]. repeat split.
Qed.

(** C10: the geometry a read, a write and a registration work with is the
    one [dev_data] points to, a variable of the file, whatever object they
    are called on.  Probing a second device makes [dev_data] point to that
    device's variant: from then on a read and a write on the object of the
    first device (whose [priv] still leads to the first device) build their
    address from the second device's width, and a registration of the first
    device's object writes the second device's size into it.  Removing
    either device sets [dev_data] to null. *)
Theorem geometry_is_process_wide (s : state W) (dev1 dev2 : udevice)
    (m1 m2 : mtd_info) (g2 : mr25hxx_data) (w1 : W) :
  dev_id dev1 <> dev_id dev2 ->
  mtds s !! dev_id dev1 = Some m1 -> mtds s !! dev_id dev2 = Some m2 ->
  dev_get_driver_data dev2 = Some g2 ->
  dm_spi_claim_bus dev2 (world s) = (0, w1) ->
  exists r s2,
    spi_mram_probe dev2 s = Some (r, s2) /\
    dev_data s2 = Some g2 /\
    mtds s2 !! dev_id dev1 = Some m1 /\
    (forall offset len retlen buf, exists addr bits out s3 p1 p2 p3,
        mram_addr g2 offset = Some (addr, bits) /\
        spi_mram_read (dev_id dev1) offset len retlen buf s2 = Some (out, s3) /\
        spi_log s3 = spi_log s2 ++ [p1; p2; p3] /\
        ph_dev p2 = mtd_priv m1 /\ ph_dout p2 = Some addr /\
        ph_bitlen p2 = bits) /\
    (forall offset len retlen buf, exists addr bits out s3 p1 p2 p3 p4,
        mram_addr g2 offset = Some (addr, bits) /\
        spi_mram_write (dev_id dev1) offset len retlen buf s2 = Some (out, s3) /\
        spi_log s3 = spi_log s2 ++ [p1; p2; p3; p4] /\
        ph_dev p3 = mtd_priv m1 /\ ph_dout p3 = Some addr /\
        ph_bitlen p3 = bits) /\
    (exists r3 s3,
        spi_mram_mtd_register (dev_id dev1) s2 = Some (r3, s3) /\
        ((mram_mtd_registered s2 = true /\ r3 <> 0 /\ mtds s3 = mtds s2) \/
         (exists e, mtds s3 !! dev_id dev1 = Some e /\
                    mtd_size e = data_size g2))) /\
    (forall dev, dev = dev1 \/ dev = dev2 ->
       exists s4, spi_mram_remove dev s2 = Some (0, s4) /\ dev_data s4 = None).
Proof.
  intros Hne Hm1 Hm2 Hg2 Hclaim.
  destruct (probe_claimed s dev2 m2 g2 w1 Hm2 Hg2 Hclaim)
    as (r & s2 & Hprobe & Hd2 & _ & Hframe).
  assert (Hm1' : mtds s2 !! dev_id dev1 = Some m1)
    by (rewrite Hframe by exact Hne; exact Hm1).
  exists r, s2. split; [exact Hprobe |]. split; [exact Hd2 |].
  split; [exact Hm1' |].
  pose proof (driver_data_supported dev2 g2 Hg2) as Hw.
  split; [| split; [| split]].
  - intros offset len retlen buf.
    destruct (mram_addr_supported g2 offset Hw) as (addr & bits & Ha).
    destruct (read_run s2 g2 m1 (dev_id dev1) offset len retlen buf addr bits
                Hd2 Hm1' Ha) as (r1 & r2 & r3 & rx & w' & Hrun).
    exists addr, bits. rewrite Hrun. do 5 eexists.
    split; [exact Ha |]. repeat split.
  - intros offset len retlen buf.
    destruct (mram_addr_supported g2 offset Hw) as (addr & bits & Ha).
    destruct (write_run s2 g2 m1 (dev_id dev1) offset len retlen buf addr bits
                Hd2 Hm1' Ha) as (rA & rB & rC & rD & w' & Hrun).
    exists addr, bits. rewrite Hrun. do 6 eexists.
    split; [exact Ha |]. repeat split.
  - destruct (register_run s2 g2 m1 (dev_id dev1) Hm1' Hd2)
      as [(rd & w2 & Hreg & _ & Hnz & Hrun)
         | (w2 & pre & ra & w3 & _ & _ & Hrun)];
      rewrite Hrun; eexists _, _; (split; [reflexivity |]); cbn.
    + left. auto.
    + right. eexists. split; [apply lookup_insert_eq | reflexivity].
  - intros dev [-> | ->].
    + exact (remove_run s2 dev1 m1 Hm1').
    + assert (Hsome : is_Some (mtds s2 !! dev_id dev2)).
      { rewrite (probe_run s dev2 m2 w1 Hm2 Hclaim) in Hprobe.
        destruct CONFIG_SPI_FLASH_MTD.
        - match type of Hprobe with
          | spi_mram_mtd_register _ ?s1 = _ =>
              destruct (register_run s1 g2 (set_priv (Some dev2) m2)
                          (dev_id dev2))
                as [(rd & w2 & _ & _ & _ & Hrun)
                   | (w2 & pre & ra & w3 & _ & _ & Hrun)];
              [apply lookup_insert_eq | exact Hg2 | |]
          end; rewrite Hrun in Hprobe; injection Hprobe as _ <-; cbn;
            rewrite lookup_insert_eq; eauto.
        - injection Hprobe as _ <-. cbn. rewrite lookup_insert_eq. eauto. }
      destruct Hsome as [m2' Hm2'].
      exact (remove_run s2 dev2 m2' Hm2').
Qed.

(** *** Erase *)


End Properties.

(** ** The statements on the board *)

(** C1: an erase of 16 bytes at offset 0 on a 32-bit build.  The block of
    the allocator holds the stale byte 0xAA; [memset] clears [sizeof(buffer)]
    bytes of it, the 4 of a pointer, and the write sends all 16: four bytes
    of 0 and twelve of 0xAA.  The read of the same range that follows returns
    these bytes, not zeros. *)
Theorem erase_sends_stale_bytes :
  exists s1 s2 pD,
    spi_mram_erase (P := P32) 2%nat (EraseInfo 0 16) (s_h256 []) = Some (0, s1) /\
    last (spi_log s1) = Some pD /\
    ph_sent pD = replicate 4 0 ++ replicate 12 0xAA /\
    spi_mram_read (P := P32) 2%nat 0 16 0 (replicate 16 0) s1 =
      Some ((0, 16, replicate 4 0 ++ replicate 12 0xAA), s2) /\
    replicate 4 0 ++ replicate 12 0xAA <> replicate 16 0.
Proof.
  do 3 eexists.
  split; [vm_compute; reflexivity |].
  split; [vm_compute; reflexivity |].
  split; [vm_compute; reflexivity |].
  split; [vm_compute; reflexivity |].
  vm_compute. discriminate.
Qed.

(** C2: a read and a write whose opcode transfer fails with -5 while the
    transfers after it return 0.  Both calls return 0 and assign [len], 16,
    to [*retlen]: only the result of the last transfer is looked at. *)
Theorem retlen_set_after_failed_phase :
  (exists buf' s',
      spi_mram_read (P := P64) 2%nat 0 16 0 [] (s_h256 [-5]) =
        Some ((0, 16, buf'), s') /\
      map ph_result (spi_log s') = [-5; 0; 0]) /\
  (exists s',
      spi_mram_write (P := P64) 2%nat 0 16 0 (replicate 16 1) (s_h256 [0; -5]) =
        Some ((0, 16), s') /\
      map ph_result (spi_log s') = [0; -5; 0; 0]).
Proof.
  split.
  - do 2 eexists. split; vm_compute; reflexivity.
  - eexists. split; vm_compute; reflexivity.
Qed.

(** C5, the claim as it stands: a read with an address width of 4, called
    with 7 in [*retlen], returns -1 and leaves 7 there, not 0. *)
Lemma read_unsupported_retlen_not_zero :
  spi_mram_read (P := P64) 1%nat 0 16 7 [] s_width4 = Some ((-1, 7, []), s_width4) /\
  7 <> 0.
Proof.
  split; [vm_compute; reflexivity | lia].
Qed.

(** ** The general statements, tried on the board *)

(** C3 on a device bound to four address bytes. *)
Lemma unsupported_width_aborts_witness :
  dev_data s_width4 = Some (Mr25hxxData 0x80000 4) /\
  addr_bytes (Mr25hxxData 0x80000 4) <> 2 /\
  addr_bytes (Mr25hxxData 0x80000 4) <> 3 /\
  (exists r retlen' buf' s',
      spi_mram_read (P := P64) 1%nat 0 16 0 [] s_width4 =
        Some ((r, retlen', buf'), s') /\
      r <> 0 /\ spi_log s' = spi_log s_width4 /\
      world s' = world s_width4 /\ s' = s_width4) /\
  (exists r retlen' s',
      spi_mram_write (P := P64) 1%nat 0 16 0 [] s_width4 =
        Some ((r, retlen'), s') /\
      r <> 0 /\ spi_log s' = spi_log s_width4 /\
      world s' = world s_width4 /\ s' = s_width4).
Proof.
  assert (H2 : addr_bytes (Mr25hxxData 0x80000 4) <> 2) by (simpl; lia).
  assert (H3 : addr_bytes (Mr25hxxData 0x80000 4) <> 3) by (simpl; lia).
  split; [reflexivity |]. split; [exact H2 |]. split; [exact H3 |].
  exact (unsupported_width_aborts (P := P64) s_width4 _ 1%nat 0 16 0 []
           eq_refl H2 H3).
Defined.

(** C4 on the mr25h40, offset 0x010203. *)
Lemma address_is_big_endian_witness :
  dev_data s_after_h40 = Some mr25h40_data /\
  mtds s_after_h40 !! 1%nat = Some (mtd_fill mr25h40_data
                                      (set_priv (Some dev_h40) mtd_info0)) /\
  (addr_bytes mr25h40_data = 2 \/ addr_bytes mr25h40_data = 3) /\
  exists out s' p1 p2 p3,
    spi_mram_read (P := P64) 1%nat 0x010203 4 0 [] s_after_h40 = Some (out, s') /\
    spi_log s' = spi_log s_after_h40 ++ [p1; p2; p3] /\
    ph_sent p2 = [0x01; 0x02; 0x03] /\ ph_bitlen p2 = 24.
Proof.
  assert (Hd : dev_data s_after_h40 = Some mr25h40_data)
    by (vm_compute; reflexivity).
  assert (Hm : mtds s_after_h40 !! 1%nat =
               Some (mtd_fill mr25h40_data (set_priv (Some dev_h40) mtd_info0)))
    by (vm_compute; reflexivity).
  assert (Hw : addr_bytes mr25h40_data = 2 \/ addr_bytes mr25h40_data = 3)
    by (right; reflexivity).
  split; [exact Hd |]. split; [exact Hm |]. split; [exact Hw |].
  exact (proj1 (address_is_big_endian (P := P64) s_after_h40 mr25h40_data _
                  1%nat 0x010203 4 0 [] Hd Hm Hw)).
Defined.

(** C5, as amended, on the same device, the caller having put 0 in
    [*retlen]. *)
Lemma read_unsupported_keeps_retlen_witness :
  dev_data s_width4 = Some (Mr25hxxData 0x80000 4) /\
  addr_bytes (Mr25hxxData 0x80000 4) <> 2 /\
  addr_bytes (Mr25hxxData 0x80000 4) <> 3 /\
  exists retlen' s',
    spi_mram_read (P := P64) 1%nat 0 16 0 [] s_width4 =
      Some ((-1, retlen', []), s') /\
    spi_log s' = spi_log s_width4 /\
    retlen' = 0 /\
    (0 = 0 -> retlen' = 0).
Proof.
  assert (H2 : addr_bytes (Mr25hxxData 0x80000 4) <> 2) by (simpl; lia).
  assert (H3 : addr_bytes (Mr25hxxData 0x80000 4) <> 3) by (simpl; lia).
  split; [reflexivity |]. split; [exact H2 |]. split; [exact H3 |].
  exact (read_unsupported_keeps_retlen (P := P64) s_width4 _ 1%nat 0 16 0 []
           eq_refl H2 H3).
Defined.

(** C6 on the mr25h256: two writes in a row, the second transfer of the
    first one failing. *)
Lemma write_enable_before_every_write_witness :
  dev_data (s_h256 [0; -5]) = Some mr25h256_data /\
  (addr_bytes mr25h256_data = 2 \/ addr_bytes mr25h256_data = 3) /\
  mtds (s_h256 [0; -5]) !! 2%nat = Some (set_priv (Some dev_h256) mtd_info0) /\
  exists s' blocks,
    write_all (P := P64) 2%nat [(0, 1, [0x06]); (0x10, 2, [1; 2])]
              (s_h256 [0; -5]) = Some (tt, s') /\
    spi_log s' = spi_log (s_h256 [0; -5]) ++ concat blocks /\
    Forall2 (write_block (Some dev_h256) mr25h256_data)
            [(0, 1, [0x06]); (0x10, 2, [1; 2])] blocks /\
    Forall (fun blk =>
              (exists pA rest, blk = pA :: rest /\ is_wren pA = true /\
                               List.filter is_wren rest = []) /\
              length (List.filter is_wren blk) = 1%nat) blocks.
Proof.
  assert (Hw : addr_bytes mr25h256_data = 2 \/ addr_bytes mr25h256_data = 3)
    by (left; reflexivity).
  assert (Hm : mtds (s_h256 [0; -5]) !! 2%nat =
               Some (set_priv (Some dev_h256) mtd_info0))
    by (vm_compute; reflexivity).
  split; [reflexivity |]. split; [exact Hw |]. split; [exact Hm |].
  exact (write_enable_before_every_write (P := P64)
           [(0, 1, [0x06]); (0x10, 2, [1; 2])] (s_h256 [0; -5]) mr25h256_data
           _ 2%nat eq_refl Hw Hm).
Defined.

(** C7 on the mr25h256. *)
Lemma read_h256_scenario_witness :
  dev_data (s_h256 []) = Some mr25h256_data /\
  mtds (s_h256 []) !! 2%nat = Some (set_priv (Some dev_h256) mtd_info0) /\
  exists r1 r2 r3 result retlen' buf' s' p1 p2 p3,
    spi_mram_read (P := P64) 2%nat 0 16 0 [] (s_h256 []) =
      Some ((result, retlen', buf'), s') /\
    spi_log s' = spi_log (s_h256 []) ++ [p1; p2; p3] /\
    p1 = SpiPhase (Some dev_h256) 8 (Some [0x03]) false SPI_XFER_BEGIN r1 /\
    ph_bitlen p2 = 16 /\ ph_sent p2 = [0x00; 0x00] /\ ph_din p2 = false /\
    ph_flags p2 = 0 /\ ph_result p2 = r2 /\ ph_dev p2 = Some dev_h256 /\
    p3 = SpiPhase (Some dev_h256) 128 None true SPI_XFER_END r3 /\
    (r1 = 0 -> r2 = 0 -> r3 = 0 -> result = 0 /\ retlen' = 16).
Proof.
  assert (Hm : mtds (s_h256 []) !! 2%nat =
               Some (set_priv (Some dev_h256) mtd_info0))
    by (vm_compute; reflexivity).
  split; [reflexivity |]. split; [exact Hm |].
  exact (proj2 (proj2 (read_h256_scenario (P := P64) (s_h256 []) _ 2%nat 0 []
                         eq_refl Hm))).
Defined.

(** C8 on the mr25h256, registered, registered again. *)
Lemma register_removes_stale_entry_first_witness :
  mtds s_registered !! 2%nat = Some (set_priv (Some dev_h256) mtd_info0) /\
  dev_data s_registered = Some mr25h256_data /\
  mram_mtd_registered s_registered = true /\
  (mtd_count (Platform := P64) (world s_registered) 2%nat <= 1)%nat /\
  exists r s',
    spi_mram_mtd_register (P := P64) 2%nat s_registered = Some (r, s') /\
    (mtd_count (Platform := P64) (world s') 2%nat <= 1)%nat.
Proof.
  assert (Hm : mtds s_registered !! 2%nat =
               Some (set_priv (Some dev_h256) mtd_info0))
    by (vm_compute; reflexivity).
  assert (Hc : (mtd_count (Platform := P64) (world s_registered) 2%nat <= 1)%nat)
    by (vm_compute; lia).
  split; [exact Hm |]. split; [reflexivity |]. split; [reflexivity |].
  split; [exact Hc |].
  destruct (register_removes_stale_entry_first (P := P64) s_registered
              mr25h256_data _ 2%nat Hm eq_refl eq_refl Hc)
    as (r & s' & Hrun & Hle & _).
  exists r, s'. split; [exact Hrun | exact Hle].
Defined.

(** C9 on the mr25h256 at boot. *)
Lemma variant_geometry_reaches_registry_witness :
  mtds (s_boot []) !! dev_id dev_h256 = Some mtd_info0 /\
  dev_get_driver_data dev_h256 = Some mr25h256_data /\
  dm_spi_claim_bus (Platform := P64) dev_h256 (world (s_boot [])) =
    (0, world (s_boot [])) /\
  CONFIG_SPI_FLASH_MTD (Platform := P64) = true /\
  exists r s',
    spi_mram_probe (P := P64) dev_h256 (s_boot []) = Some (r, s').
Proof.
  assert (Hm : mtds (s_boot []) !! dev_id dev_h256 = Some mtd_info0)
    by (vm_compute; reflexivity).
  assert (Hg : dev_get_driver_data dev_h256 = Some mr25h256_data)
    by (vm_compute; reflexivity).
  split; [exact Hm |]. split; [exact Hg |].
  split; [reflexivity |]. split; [reflexivity |].
  destruct (variant_geometry_reaches_registry (P := P64) (s_boot []) dev_h256
              _ _ _ Hm Hg eq_refl eq_refl)
    as (_ & _ & r & s' & Hrun & _).
  exists r, s'. exact Hrun.
Defined.

(** C10: the mr25h40 probed, then the mr25h256; a read of the mr25h40's
    object sends a 16-bit address. *)
Lemma geometry_is_process_wide_witness :
  dev_id dev_h40 <> dev_id dev_h256 /\
  mtds s_after_h40 !! dev_id dev_h40 =
    Some (mtd_fill mr25h40_data (set_priv (Some dev_h40) mtd_info0)) /\
  mtds s_after_h40 !! dev_id dev_h256 = Some mtd_info0 /\
  dev_get_driver_data dev_h256 = Some mr25h256_data /\
  dm_spi_claim_bus (Platform := P64) dev_h256 (world s_after_h40) =
    (0, world s_after_h40) /\
  exists r s2,
    spi_mram_probe (P := P64) dev_h256 s_after_h40 = Some (r, s2) /\
    dev_data s2 = Some mr25h256_data /\
    mtds s2 !! dev_id dev_h40 =
      Some (mtd_fill mr25h40_data (set_priv (Some dev_h40) mtd_info0)).
Proof.
  assert (Hne : dev_id dev_h40 <> dev_id dev_h256) by (simpl; lia).
  assert (Hm1 : mtds s_after_h40 !! dev_id dev_h40 =
                Some (mtd_fill mr25h40_data (set_priv (Some dev_h40) mtd_info0)))
    by (vm_compute; reflexivity).
  assert (Hm2 : mtds s_after_h40 !! dev_id dev_h256 = Some mtd_info0)
    by (vm_compute; reflexivity).
  assert (Hg : dev_get_driver_data dev_h256 = Some mr25h256_data)
    by (vm_compute; reflexivity).
  assert (Hc : dm_spi_claim_bus (Platform := P64) dev_h256 (world s_after_h40) =
               (0, world s_after_h40))
    by (vm_compute; reflexivity).
  split; [exact Hne |]. split; [exact Hm1 |]. split; [exact Hm2 |].
  split; [exact Hg |]. split; [exact Hc |].
  destruct (geometry_is_process_wide (P := P64) s_after_h40 dev_h40 dev_h256
              _ _ _ _ Hne Hm1 Hm2 Hg Hc)
    as (r & s2 & Hrun & Hd & Hm & _).
  exists r, s2. split; [exact Hrun |]. split; [exact Hd | exact Hm].
Defined.

(** ** Further behaviour of the entry points *)

Section Behaviour.
Context {W : Type} {P : Platform W}.

(** *** Probe and unregister *)

(** X1: when the bus claim fails, the probe returns the error of
    [dm_spi_claim_bus] and stops: [dev_data] and the registration flag are as
    before, the MTD core is not called and nothing is transferred.  The
    assignment [mtd->priv = dev] has already been made. *)
Theorem probe_claim_failure (s : state W) (dev : udevice) (m : mtd_info)
    (r : Z) (w1 : W) :
  mtds s !! dev_id dev = Some m ->
  dm_spi_claim_bus dev (world s) = (r, w1) -> r <> 0 ->
  exists s',
    spi_mram_probe dev s = Some (r, s') /\
    dev_data s' = dev_data s /\
    mram_mtd_registered s' = mram_mtd_registered s /\
    mtd_log s' = mtd_log s /\ spi_log s' = spi_log s /\
    world s' = w1 /\
    mtds s' = <[dev_id dev := set_priv (Some dev) m]> (mtds s).
Proof.
  intros Hm Hclaim Hne.
  unfold spi_mram_probe, bind, load_mtd, store_mtd, spi_claim_bus,
    dev_get_uclass_priv, set_dev_data.
  cbv zeta beta. rewrite Hm. cbn. rewrite ?Hm. cbn. rewrite Hclaim. cbn.
  destruct (Z.eqb_spec r 0) as [-> | _]; [contradiction |]. cbn.
  eexists. split; [reflexivity |]. cbn. repeat split.
Qed.

(** The three ways through [spi_mram_mtd_unregister]. *)
Lemma unregister_run (s : state W) (dev : udevice) (m : mtd_info) :
  mtds s !! dev_id dev = Some m ->
  spi_mram_mtd_unregister dev s =
  if mram_mtd_registered s then
    Some (tt,
          State (negb (fst (del_mtd_device (dev_id dev) m (world s)) =? 0))
                (dev_data s)
                (if fst (del_mtd_device (dev_id dev) m (world s)) =? 0
                 then mtds s
                 else <[dev_id dev := set_priv None m]> (mtds s))
                (snd (del_mtd_device (dev_id dev) m (world s)))
                (spi_log s)
                (mtd_log s ++
                 [EvDel (dev_id dev)
                        (fst (del_mtd_device (dev_id dev) m (world s)))]))
  else Some (tt, s).
Proof.
  intros Hm.
  unfold spi_mram_mtd_unregister, bind, get_registered, dev_get_uclass_priv.
  cbv zeta beta.
  destruct (mram_mtd_registered s) eqn:Hreg; cbn; [| reflexivity].
  unfold mtd_del. rewrite Hm.
  destruct (del_mtd_device (dev_id dev) m (world s)) as [rd w1]. cbn.
  destruct (rd =? 0); cbn; [reflexivity |].
  unfold load_mtd, store_mtd. cbn. rewrite Hm. cbn. rewrite ?Hm, ?Hreg.
  reflexivity.
Qed.

(** X2: unregistering does nothing at all while the flag is clear.  While it
    is set, [del_mtd_device] is called once: when it returns 0 the flag is
    cleared and the object is left alone; when it fails the flag stays set
    and [mtd->priv] is set to null.  In no case is [dev_data] changed or
    anything transferred. *)
Theorem unregister_outcomes (s : state W) (dev : udevice) (m : mtd_info) :
  mtds s !! dev_id dev = Some m ->
  exists s',
    spi_mram_mtd_unregister dev s = Some (tt, s') /\
    dev_data s' = dev_data s /\ spi_log s' = spi_log s /\
    ((mram_mtd_registered s = false /\ s' = s) \/
     (mram_mtd_registered s = true /\
      exists rd,
        del_mtd_device (dev_id dev) m (world s) = (rd, world s') /\
        mtd_log s' = mtd_log s ++ [EvDel (dev_id dev) rd] /\
        ((rd = 0 /\ mram_mtd_registered s' = false /\ mtds s' = mtds s) \/
         (rd <> 0 /\ mram_mtd_registered s' = true /\
          mtds s' = <[dev_id dev := set_priv None m]> (mtds s))))).
Proof.
  intros Hm. rewrite (unregister_run s dev m Hm).
  destruct (mram_mtd_registered s) eqn:Hreg.
  - eexists. split; [reflexivity |]. cbn.
    split; [reflexivity |]. split; [reflexivity |]. right.
    split; [reflexivity |].
    destruct (del_mtd_device (dev_id dev) m (world s)) as [rd w1]. cbn.
    exists rd. split; [reflexivity |]. split; [reflexivity |].
    destruct (Z.eqb_spec rd 0) as [-> | Hne]; cbn; auto.
  - exists s. repeat split; auto.
Qed.

(** X3: after a failed unregistration the object's [priv] is null, and the
    driver goes on using it: every transfer of a later read or write on that
    object is issued on a null device. *)
Theorem transfers_on_null_device_after_failed_unregister (s : state W)
    (dev : udevice) (m : mtd_info) (d : mr25hxx_data) (rd : Z) (w1 : W)
    (offset len retlen : Z) (buf : list Z) :
  mtds s !! dev_id dev = Some m ->
  dev_data s = Some d -> addr_bytes d = 2 \/ addr_bytes d = 3 ->
  mram_mtd_registered s = true ->
  del_mtd_device (dev_id dev) m (world s) = (rd, w1) -> rd <> 0 ->
  exists s1,
    spi_mram_mtd_unregister dev s = Some (tt, s1) /\
    (exists out s2 p1 p2 p3,
        spi_mram_read (dev_id dev) offset len retlen buf s1 = Some (out, s2) /\
        spi_log s2 = spi_log s1 ++ [p1; p2; p3] /\
        ph_dev p1 = None /\ ph_dev p2 = None /\ ph_dev p3 = None) /\
    (exists out s2 p1 p2 p3 p4,
        spi_mram_write (dev_id dev) offset len retlen buf s1 = Some (out, s2) /\
        spi_log s2 = spi_log s1 ++ [p1; p2; p3; p4] /\
        ph_dev p1 = None /\ ph_dev p2 = None /\ ph_dev p3 = None /\
        ph_dev p4 = None).
Proof.
  intros Hm Hd Hw Hreg Hdel Hne.
  rewrite (unregister_run s dev m Hm), Hreg, Hdel. cbn.
  destruct (Z.eqb_spec rd 0) as [-> | _]; [contradiction |]. cbn.
  eexists. split; [reflexivity |].
  destruct (mram_addr_supported d offset Hw) as (addr & bits & Ha).
  match goal with
  | |- context [spi_mram_read _ _ _ _ _ ?s1] =>
      assert (Hm1 : mtds s1 !! dev_id dev = Some (set_priv None m))
        by apply lookup_insert_eq;
      destruct (read_run s1 d _ (dev_id dev) offset len retlen buf addr bits
                  Hd Hm1 Ha) as (r1 & r2 & r3 & rx & w' & Hread);
      destruct (write_run s1 d _ (dev_id dev) offset len retlen buf addr bits
                  Hd Hm1 Ha) as (rA & rB & rC & rD & w'' & Hwrite)
  end.
  split.
  - rewrite Hread. do 5 eexists. split; [reflexivity |]. repeat split.
  - rewrite Hwrite. do 6 eexists. split; [reflexivity |]. repeat split.
Qed.

(** *** Remove *)

(** With [dev_data] null, a read, a write and an erase dereference it, and so
    does a registration that gets past the deletion of a stale entry. *)
Lemma null_dev_data_faults (s : state W) :
  dev_data s = None ->
  (forall mtd offset len retlen buf,
      spi_mram_read mtd offset len retlen buf s = None /\
      spi_mram_write mtd offset len retlen buf s = None) /\
  (forall mtd instr, spi_mram_erase mtd instr s = None) /\
  (forall mtd, mram_mtd_registered s = false ->
               spi_mram_mtd_register mtd s = None).
Proof.
  intros Hd. split; [| split].
  - intros mtd offset len retlen buf.
    unfold spi_mram_read, spi_mram_write, bind, deref_dev_data.
    rewrite Hd. split; reflexivity.
  - intros mtd instr.
    unfold spi_mram_erase. unfold bind at 1. unfold heap_kmalloc.
    destruct (kmalloc _ (world s)) as [b w1]. unfold bind at 1.
    unfold memset. destruct b as [blk |]; [| reflexivity].
    destruct (Z.of_nat (length blk) <? sizeof_ptr); [reflexivity |].
    unfold ret at 1. unfold bind at 1.
    unfold spi_mram_write. unfold bind at 1. unfold deref_dev_data. cbn.
    rewrite Hd. reflexivity.
  - intros mtd Hreg.
    unfold spi_mram_mtd_register, bind, get_registered. rewrite Hreg. cbn.
    unfold load_mtd, deref_dev_data. cbn.
    destruct (mtds s !! mtd); [| reflexivity]. rewrite Hd. reflexivity.
Qed.

(** X4: a remove returns 0 and leaves [dev_data] null.  From then on, until
    a device is probed again, every read, write and erase, on any object,
    dereferences the null pointer; so does a registration once the flag is
    clear. *)
Theorem operations_after_remove_fault (s : state W) (dev : udevice)
    (m : mtd_info) :
  mtds s !! dev_id dev = Some m ->
  exists s',
    spi_mram_remove dev s = Some (0, s') /\
    dev_data s' = None /\
    (forall mtd offset len retlen buf,
        spi_mram_read mtd offset len retlen buf s' = None /\
        spi_mram_write mtd offset len retlen buf s' = None) /\
    (forall mtd instr, spi_mram_erase mtd instr s' = None) /\
    (forall mtd, mram_mtd_registered s' = false ->
                 spi_mram_mtd_register mtd s' = None).
Proof.
  intros Hm. destruct (remove_run s dev m Hm) as (s' & Hrun & Hd).
  exists s'. split; [exact Hrun |]. split; [exact Hd |].
  exact (null_dev_data_faults s' Hd).
Qed.

(** X5: a remove returns 0 also when the unregistration failed.  The flag is
    then still set and the registry still holds what it held, while
    [dev_data] and the object's [priv] are null. *)
Theorem remove_hides_unregister_failure (s : state W) (dev : udevice)
    (m : mtd_info) (rd : Z) (w1 : W) :
  CONFIG_SPI_FLASH_MTD = true ->
  mtds s !! dev_id dev = Some m ->
  mram_mtd_registered s = true ->
  del_mtd_device (dev_id dev) m (world s) = (rd, w1) -> rd <> 0 ->
  exists s',
    spi_mram_remove dev s = Some (0, s') /\
    mram_mtd_registered s' = true /\
    (forall q, mtd_count (world s') q = mtd_count (world s) q) /\
    dev_data s' = None /\
    mtds s' !! dev_id dev = Some (set_priv None m) /\
    mtd_log s' = mtd_log s ++ [EvDel (dev_id dev) rd].
Proof.
  intros Hcfg Hm Hreg Hdel Hne.
  unfold spi_mram_remove. rewrite Hcfg. unfold bind at 1.
  rewrite (unregister_run s dev m Hm), Hreg, Hdel. cbn.
  destruct (Z.eqb_spec rd 0) as [-> | _]; [contradiction |]. cbn.
  eexists. split; [reflexivity |]. cbn.
  split; [reflexivity |].
  split; [exact (del_mtd_device_err _ _ _ _ _ Hdel Hne) |].
  split; [reflexivity |]. split; [apply lookup_insert_eq | reflexivity].
Qed.

(** *** Registration and the registry *)

(** X6: registering and unregistering keep the flag and the registry in
    agreement (at most one entry of the object, none while the flag is
    clear), whatever the MTD core answers. *)
Theorem registration_keeps_registry_consistent (s : state W) (dev : udevice)
    (m : mtd_info) (d : mr25hxx_data) :
  mtds s !! dev_id dev = Some m -> dev_data s = Some d ->
  registry_consistent (dev_id dev) s ->
  (exists r s',
      spi_mram_mtd_register (dev_id dev) s = Some (r, s') /\
      registry_consistent (dev_id dev) s') /\
  (exists s',
      spi_mram_mtd_unregister dev s = Some (tt, s') /\
      registry_consistent (dev_id dev) s').
Proof.
  intros Hm Hd Hinv. split.
  - destruct (register_keeps_consistent s d m (dev_id dev) Hm Hd Hinv)
      as (r & s' & Hrun & Hinv' & _).
    exists r, s'. auto.
  - rewrite (unregister_run s dev m Hm).
    destruct Hinv as [Hle Hclear]. unfold registry_consistent.
    destruct (mram_mtd_registered s) eqn:Hreg.
    + eexists. split; [reflexivity |]. cbn.
      destruct (del_mtd_device (dev_id dev) m (world s)) as [rd w1] eqn:Hdel.
      cbn. destruct (Z.eqb_spec rd 0) as [-> | Hne]; cbn.
      * pose proof (del_mtd_device_ok _ _ _ _ Hdel (dev_id dev)) as Hz.
        destruct (decide (dev_id dev = dev_id dev)); [| contradiction].
        split; [lia | intros _; lia].
      * rewrite (del_mtd_device_err _ _ _ _ _ Hdel Hne).
        split; [exact Hle | discriminate].
    + exists s. split; [reflexivity |]. rewrite Hreg. auto.
Qed.

(** X7: registering an unregistered object and unregistering it again.  If
    the flag is clear at the end, the registry holds for every object as many
    entries as at the start; and when [add_mtd_device] failed, the
    unregistration does not call the MTD core. *)
Theorem register_unregister_round_trip (s : state W) (dev : udevice)
    (m : mtd_info) (d : mr25hxx_data) :
  mtds s !! dev_id dev = Some m -> dev_data s = Some d ->
  mram_mtd_registered s = false ->
  exists r s1 s2,
    spi_mram_mtd_register (dev_id dev) s = Some (r, s1) /\
    spi_mram_mtd_unregister dev s1 = Some (tt, s2) /\
    (mram_mtd_registered s1 = true <-> r = 0) /\
    (mram_mtd_registered s2 = false ->
     forall q, mtd_count (world s2) q = mtd_count (world s) q) /\
    (r <> 0 -> s2 = s1).
Proof.
  intros Hm Hd Hreg.
  destruct (register_run s d m (dev_id dev) Hm Hd)
    as [(rd & w1 & Habs & _) | (w1 & pre & ra & w2 & Hpre & Hadd & Hrun)];
    [congruence |].
  destruct Hpre as [(Habs & _) | (_ & -> & ->)]; [congruence |].
  rewrite Hrun.
  match goal with
  | |- context [Some (ra, ?s1)] =>
      assert (Hm1 : mtds s1 !! dev_id dev = Some (mtd_fill d m))
        by apply lookup_insert_eq;
      pose proof (unregister_run s1 dev _ Hm1) as Hun
  end.
  cbn [mram_mtd_registered world] in Hun.
  destruct (del_mtd_device (dev_id dev) (mtd_fill d m) w2) as [rd w3] eqn:Hdel.
  destruct (Z.eqb_spec ra 0) as [-> | Hne].
  - eexists 0, _, _. split; [reflexivity |]. split; [exact Hun |]. cbn.
    split; [tauto |]. split; [| congruence].
    destruct (Z.eqb_spec rd 0) as [-> | Hnz]; cbn; [| discriminate].
    intros _ q.
    rewrite (del_mtd_device_ok _ _ _ _ Hdel q),
            (add_mtd_device_ok _ _ _ _ Hadd q).
    destruct (decide (q = dev_id dev)); lia.
  - eexists ra, _, _. split; [reflexivity |]. split; [exact Hun |]. cbn.
    split; [split; [discriminate | contradiction] |].
    split; [| reflexivity].
    intros _ q. exact (add_mtd_device_err _ _ _ _ _ Hadd Hne q).
Qed.

(** *** Read and write *)

(** A length below 2^29 gives a bit count that fits [unsigned int]. *)
Lemma bitlen_in_range (len : Z) :
  0 <= len < 2 ^ 29 ->
  (8 * len) mod UINT_MODULUS = 8 * len /\ 8 * len / 8 = len.
Proof.
  intros Hlen. unfold UINT_MODULUS. split.
  - apply Z.mod_small. lia.
  - rewrite Z.mul_comm. apply Z.div_mul. lia.
Qed.

(** X8: a read returns what its last transfer returned, whatever the first
    two did.  [*retlen] becomes [len] when that is 0 and keeps its value
    otherwise; the buffer is what the last transfer left in it.  The flag,
    [dev_data], the objects and the log of the MTD core are not touched. *)
Theorem read_reports_last_transfer (s : state W) (d : mr25hxx_data)
    (m : mtd_info) (mtd : mtd_ptr) (offset len retlen : Z) (buf : list Z) :
  dev_data s = Some d -> mtds s !! mtd = Some m ->
  addr_bytes d = 2 \/ addr_bytes d = 3 ->
  exists result retlen' buf' s' p1 p2 p3 w2,
    spi_mram_read mtd offset len retlen buf s =
      Some ((result, retlen', buf'), s') /\
    spi_log s' = spi_log s ++ [p1; p2; p3] /\
    result = ph_result p3 /\
    dm_spi_xfer (mtd_priv m) (ph_bitlen p3) None (Some buf) SPI_XFER_END w2 =
      (result, buf', world s') /\
    (result = 0 -> retlen' = len) /\
    (result <> 0 -> retlen' = retlen) /\
    mram_mtd_registered s' = mram_mtd_registered s /\
    dev_data s' = dev_data s /\ mtds s' = mtds s /\ mtd_log s' = mtd_log s.
Proof.
  intros Hd Hm Hw.
  destruct (mram_addr_supported d offset Hw) as (addr & bits & Ha).
  unfold spi_mram_read, bind, deref_dev_data. rewrite Hd, Ha.
  unfold load_mtd. rewrite Hm. unfold spi_xfer. cbn [world spi_log].
  destruct (dm_spi_xfer (mtd_priv m) 8 _ _ _ (world s)) as [[r1 x1] w1].
  cbn [world spi_log].
  destruct (dm_spi_xfer (mtd_priv m) bits _ _ _ w1) as [[r2 x2] w2].
  cbn [world spi_log].
  destruct (dm_spi_xfer (mtd_priv m) _ None _ _ w2) as [[r3 x3] w3] eqn:H3.
  cbn [fst snd].
  destruct (Z.eqb_spec r3 0) as [-> | Hne]; unfold ret;
    do 7 eexists; exists w2;
    (split; [reflexivity |]); cbn;
    (split; [rewrite <- !app_assoc; reflexivity |]); cbn;
    (split; [reflexivity |]); (split; [exact H3 |]);
    repeat split; auto; congruence.
Qed.

(** X9: a write of fewer than 2^29 bytes puts exactly the first [len] bytes
    of the buffer on the wire in its last phase, [8 * len] bits, and returns
    what that transfer returned; [*retlen] becomes [len] when that is 0 and
    keeps its value otherwise.  The flag, [dev_data], the objects and the log
    of the MTD core are not touched. *)
Theorem write_sends_first_len_bytes (s : state W) (d : mr25hxx_data)
    (m : mtd_info) (mtd : mtd_ptr) (offset len retlen : Z) (buf : list Z) :
  dev_data s = Some d -> mtds s !! mtd = Some m ->
  addr_bytes d = 2 \/ addr_bytes d = 3 ->
  0 <= len < 2 ^ 29 ->
  exists result retlen' s' pA pB pC pD,
    spi_mram_write mtd offset len retlen buf s = Some ((result, retlen'), s') /\
    spi_log s' = spi_log s ++ [pA; pB; pC; pD] /\
    ph_bitlen pD = 8 * len /\
    ph_sent pD = take (Z.to_nat len) buf /\
    result = ph_result pD /\
    (result = 0 -> retlen' = len) /\
    (result <> 0 -> retlen' = retlen) /\
    mram_mtd_registered s' = mram_mtd_registered s /\
    dev_data s' = dev_data s /\ mtds s' = mtds s /\ mtd_log s' = mtd_log s.
Proof.
  intros Hd Hm Hw Hlen.
  destruct (mram_addr_supported d offset Hw) as (addr & bits & Ha).
  destruct (write_run s d m mtd offset len retlen buf addr bits Hd Hm Ha)
    as (rA & rB & rC & rD & w' & Hrun).
  destruct (bitlen_in_range len Hlen) as [Hmod Hdiv].
  rewrite Hrun. do 7 eexists. split; [reflexivity |]. cbn.
  split; [reflexivity |].
  split; [exact Hmod |].
  split; [unfold ph_sent; cbn; rewrite Hmod, Hdiv; reflexivity |].
  split; [reflexivity |].
  destruct (Z.eqb_spec rD 0) as [-> | Hne]; repeat split; auto; congruence.
Qed.

(** The address bytes do not see a multiple of 2^(8 * addr_bytes). *)
Lemma mram_addr_wrap (d : mr25hxx_data) (offset k : Z) :
  addr_bytes d = 2 \/ addr_bytes d = 3 ->
  mram_addr d (offset + k * 2 ^ (8 * addr_bytes d)) = mram_addr d offset.
Proof.
  assert (Hbyte : forall n j, 0 <= j -> j + 8 <= n ->
            ((offset + k * 2 ^ n) / 2 ^ j) mod 256 = (offset / 2 ^ j) mod 256).
  { intros n j Hj Hn.
    replace (2 ^ n) with (2 ^ j * (256 * 2 ^ (n - j - 8))).
    - replace (offset + k * (2 ^ j * (256 * 2 ^ (n - j - 8))))
        with (offset + (k * 2 ^ (n - j - 8) * 256) * 2 ^ j) by ring.
      rewrite Z.div_add by lia. apply Z_mod_plus_full.
    - change 256 with (2 ^ 8). rewrite <- !Z.pow_add_r by lia.
      f_equal. lia. }
  assert (Hlow : forall n, 8 <= n ->
            (offset + k * 2 ^ n) mod 256 = offset mod 256).
  { intros n Hn. pose proof (Hbyte n 0 ltac:(lia) ltac:(lia)) as H0.
    rewrite Z.pow_0_r, !Z.div_1_r in H0. exact H0. }
  unfold mram_addr. intros [H | H]; rewrite H; cbn [Z.eqb Pos.eqb];
    rewrite !byte_of_offset, !low_byte_of_offset by lia;
    rewrite !Hbyte, !Hlow by lia; reflexivity.
Qed.

(** X10: the offset is not checked against the size of the device.  Two
    offsets that differ by a multiple of 2^16 (two address bytes) or 2^24
    (three) make a read, and a write, do exactly the same: the same
    transfers, the same result, the same state. *)
Theorem offset_wraps_at_address_width (s : state W) (d : mr25hxx_data)
    (mtd : mtd_ptr) (offset k len retlen : Z) (buf : list Z) :
  dev_data s = Some d -> addr_bytes d = 2 \/ addr_bytes d = 3 ->
  spi_mram_read mtd (offset + k * 2 ^ (8 * addr_bytes d)) len retlen buf s =
  spi_mram_read mtd offset len retlen buf s /\
  spi_mram_write mtd (offset + k * 2 ^ (8 * addr_bytes d)) len retlen buf s =
  spi_mram_write mtd offset len retlen buf s.
Proof.
  intros Hd Hw.
  unfold spi_mram_read, spi_mram_write, bind, deref_dev_data.
  rewrite Hd, (mram_addr_wrap d offset k Hw). split; reflexivity.
Qed.

(** X11: for a device matched by the table, every offset below the size of
    its variant is sent in full: the address bytes, read back most
    significant byte first, are the offset, so two such offsets with the same
    address bytes are the same offset. *)
Theorem in_range_offset_round_trip (dev : udevice) (g : mr25hxx_data)
    (offset : Z) :
  dev_get_driver_data dev = Some g ->
  0 <= offset < data_size g ->
  exists addr bits,
    mram_addr g offset = Some (addr, bits) /\
    be_decode (take (Z.to_nat (bits / 8)) addr) = offset /\
    (forall offset', 0 <= offset' < data_size g ->
                     mram_addr g offset' = Some (addr, bits) ->
                     offset' = offset).
Proof.
  intros Hg Hrange.
  assert (Hdec : forall o, 0 <= o < data_size g ->
            exists addr bits,
              mram_addr g o = Some (addr, bits) /\
              be_decode (take (Z.to_nat (bits / 8)) addr) = o).
  { intros o Ho.
    destruct (driver_data_cases dev g Hg)
      as [[_ ->] | [[_ ->] | [[_ ->] | [_ ->]]]];
      cbn in Ho |- *; eexists _, _; (split; [reflexivity |]);
      unfold be_decode; cbn [Z.to_nat Z.div take fold_left];
      change (Z.to_nat (3 * 8 / 8)) with 3%nat;
      change (Z.to_nat (2 * 8 / 8)) with 2%nat;
      cbn [take fold_left];
      rewrite ?byte_of_offset, ?low_byte_of_offset by lia;
      change (2 ^ 16) with 65536; change (2 ^ 8) with 256;
      Z.div_mod_to_equations; lia. }
  destruct (Hdec offset Hrange) as (addr & bits & Ha & Hback).
  exists addr, bits. split; [exact Ha |]. split; [exact Hback |].
  intros o' Ho' Ha'.
  destruct (Hdec o' Ho') as (addr' & bits' & Ha'' & Hback').
  rewrite Ha' in Ha''. injection Ha'' as <- <-. congruence.
Qed.

(** *** Erase *)



(** X13: an erase made while the address width is neither 2 nor 3 still
    allocates and clears its block first.  When [kmalloc] returns null, or a
    block of fewer than [sizeof_ptr] bytes, the [memset] is a fault.
    Otherwise the erase returns -1 without a transfer and without a call to
    the MTD core, the block is freed, and the flag, [dev_data] and the
    objects are as before. *)
Theorem erase_unsupported_width (s : state W) (d : mr25hxx_data)
    (mtd : mtd_ptr) (instr : erase_info) :
  dev_data s = Some d -> addr_bytes d <> 2 -> addr_bytes d <> 3 ->
  spi_mram_erase mtd instr s =
  match kmalloc (to_size_t (ei_len instr * 1)) (world s) with
  | (Some block, w1) =>
      if Z.of_nat (length block) <? sizeof_ptr then None
      else Some (-1, State (mram_mtd_registered s) (dev_data s) (mtds s)
                           (kfree w1) (spi_log s) (mtd_log s))
  | (None, _) => None
  end.
Proof.
  intros Hd H2 H3.
  unfold spi_mram_erase. unfold bind at 1. unfold heap_kmalloc.
  destruct (kmalloc _ (world s)) as [[block |] w1]; [| reflexivity].
  unfold bind at 1. unfold memset.
  destruct (Z.of_nat (length block) <? sizeof_ptr); [reflexivity |].
  unfold ret at 1. unfold bind at 1.
  match goal with
  | |- context [spi_mram_write mtd ?o ?l ?rl ?b ?s1] =>
      rewrite (write_unsupported s1 d mtd o l rl b Hd H2 H3)
  end.
  unfold bind, heap_kfree, ret. cbn. reflexivity.
Qed.

(** *** Probe, again *)

(** X14: a probe made while the registration flag is clear, on a build with
    the MTD layer, for a device the table matches, whose bus claim succeeds
    and whose [add_mtd_device] fails.  It returns the error of
    [add_mtd_device], with the flag clear and the registry as the bus claim
    left it; but [dev_data] is left pointing to the variant of the device,
    and the object stays filled in and bound to the device. *)
Theorem probe_registration_failure (s : state W) (dev : udevice)
    (m : mtd_info) (g : mr25hxx_data) (w1 w2 : W) (ra : Z) :
  CONFIG_SPI_FLASH_MTD = true ->
  mtds s !! dev_id dev = Some m ->
  dev_get_driver_data dev = Some g ->
  mram_mtd_registered s = false ->
  dm_spi_claim_bus dev (world s) = (0, w1) ->
  add_mtd_device (dev_id dev) (mtd_fill g (set_priv (Some dev) m)) w1 =
    (ra, w2) ->
  ra <> 0 ->
  exists s',
    spi_mram_probe dev s = Some (ra, s') /\
    mram_mtd_registered s' = false /\
    (forall q, mtd_count (world s') q = mtd_count w1 q) /\
    dev_data s' = Some g /\
    mtds s' !! dev_id dev = Some (mtd_fill g (set_priv (Some dev) m)) /\
    mtd_priv (mtd_fill g (set_priv (Some dev) m)) = Some dev.
Proof.
  intros Hcfg Hm Hg Hreg Hclaim Hadd Hne.
  rewrite (probe_run s dev m w1 Hm Hclaim), Hcfg.
  match goal with
  | |- context [spi_mram_mtd_register _ ?s1] =>
      destruct (register_run s1 g (set_priv (Some dev) m) (dev_id dev))
        as [(rd & w3 & Habs & _)
           | (w3 & pre & ra' & w4 & Hpre & Hadd' & Hrun)];
      [apply lookup_insert_eq | exact Hg | cbn in Habs; congruence |]
  end.
  cbn in Hpre. destruct Hpre as [(Habs & _) | (_ & -> & ->)]; [congruence |].
  cbn in Hadd'. rewrite Hadd in Hadd'. injection Hadd' as <- <-.
  rewrite Hrun. eexists. split; [reflexivity |]. cbn.
  destruct (Z.eqb_spec ra 0) as [-> | _]; [contradiction |].
  split; [reflexivity |].
  split; [exact (add_mtd_device_err _ _ _ _ _ Hadd Hne) |].
  split; [exact Hg |]. split; [apply lookup_insert_eq | reflexivity].
Qed.

End Behaviour.

(** ** The further statements, tried on the board *)

(** X1: the mr25h256 probed while the bus claim fails with -16. *)
Lemma probe_claim_failure_witness :
  mtds s_claim_fails !! dev_id dev_h256 = Some mtd_info0 /\
  dm_spi_claim_bus (Platform := P64) dev_h256 (world s_claim_fails) =
    (-16, board_with [] [] [] (fun _ => 0%nat)) /\
  -16 <> 0 /\
  exists s',
    spi_mram_probe (P := P64) dev_h256 s_claim_fails = Some (-16, s') /\
    dev_data s' = None /\ mram_mtd_registered s' = false.
Proof.
  assert (Hm : mtds s_claim_fails !! dev_id dev_h256 = Some mtd_info0)
    by (vm_compute; reflexivity).
  assert (Hne : -16 <> 0) by lia.
  split; [exact Hm |]. split; [reflexivity |]. split; [exact Hne |].
  destruct (probe_claim_failure (P := P64) s_claim_fails dev_h256 _ (-16) _
              Hm eq_refl Hne) as (s' & Hrun & Hd & Hreg & _).
  exists s'. split; [exact Hrun |]. split; [exact Hd | exact Hreg].
Defined.

(** X2: the mr25h256 unregistered while [del_mtd_device] fails. *)
Lemma unregister_outcomes_witness :
  mtds s_del_fails !! dev_id dev_h256 =
    Some (set_priv (Some dev_h256) mtd_info0) /\
  exists s',
    spi_mram_mtd_unregister (P := P64) dev_h256 s_del_fails = Some (tt, s') /\
    dev_data s' = dev_data s_del_fails /\ spi_log s' = spi_log s_del_fails.
Proof.
  assert (Hm : mtds s_del_fails !! dev_id dev_h256 =
               Some (set_priv (Some dev_h256) mtd_info0))
    by (vm_compute; reflexivity).
  split; [exact Hm |].
  destruct (unregister_outcomes (P := P64) s_del_fails dev_h256 _ Hm)
    as (s' & Hrun & Hd & Hlog & _).
  exists s'. split; [exact Hrun |]. split; [exact Hd | exact Hlog].
Defined.

(** X3: the same state, then a read of 4 bytes at offset 0. *)
Lemma transfers_on_null_device_after_failed_unregister_witness :
  mtds s_del_fails !! dev_id dev_h256 =
    Some (set_priv (Some dev_h256) mtd_info0) /\
  dev_data s_del_fails = Some mr25h256_data /\
  (addr_bytes mr25h256_data = 2 \/ addr_bytes mr25h256_data = 3) /\
  mram_mtd_registered s_del_fails = true /\
  del_mtd_device (Platform := P64) (dev_id dev_h256)
    (set_priv (Some dev_h256) mtd_info0) (world s_del_fails) =
    (-16, board_with [] [] []
            (fun q => if decide (q = dev_id dev_h256) then 1%nat else 0%nat)) /\
  -16 <> 0 /\
  exists s1,
    spi_mram_mtd_unregister (P := P64) dev_h256 s_del_fails = Some (tt, s1) /\
    exists out s2 p1 p2 p3,
      spi_mram_read (P := P64) (dev_id dev_h256) 0 4 0 [] s1 = Some (out, s2) /\
      spi_log s2 = spi_log s1 ++ [p1; p2; p3] /\
      ph_dev p1 = None /\ ph_dev p2 = None /\ ph_dev p3 = None.
Proof.
  assert (Hm : mtds s_del_fails !! dev_id dev_h256 =
               Some (set_priv (Some dev_h256) mtd_info0))
    by (vm_compute; reflexivity).
  assert (Hw : addr_bytes mr25h256_data = 2 \/ addr_bytes mr25h256_data = 3)
    by (left; reflexivity).
  assert (Hne : -16 <> 0) by lia.
  split; [exact Hm |]. split; [reflexivity |]. split; [exact Hw |].
  split; [reflexivity |]. split; [reflexivity |]. split; [exact Hne |].
  destruct (transfers_on_null_device_after_failed_unregister (P := P64)
              s_del_fails dev_h256 _ mr25h256_data (-16) _ 0 4 0 []
              Hm eq_refl Hw eq_refl eq_refl Hne) as (s1 & Hrun & Hread & _).
  exists s1. split; [exact Hrun | exact Hread].
Defined.

(** X4: the mr25h256 removed, then read. *)
Lemma operations_after_remove_fault_witness :
  mtds s_registered !! dev_id dev_h256 =
    Some (set_priv (Some dev_h256) mtd_info0) /\
  exists s',
    spi_mram_remove (P := P64) dev_h256 s_registered = Some (0, s') /\
    dev_data s' = None /\
    spi_mram_read (P := P64) 2%nat 0 16 0 [] s' = None.
Proof.
  assert (Hm : mtds s_registered !! dev_id dev_h256 =
               Some (set_priv (Some dev_h256) mtd_info0))
    by (vm_compute; reflexivity).
  split; [exact Hm |].
  destruct (operations_after_remove_fault (P := P64) s_registered dev_h256 _
              Hm) as (s' & Hrun & Hd & Hrw & _).
  exists s'. split; [exact Hrun |]. split; [exact Hd |].
  exact (proj1 (Hrw 2%nat 0 16 0 [])).
Defined.

(** X5: the mr25h256 removed while [del_mtd_device] fails. *)
Lemma remove_hides_unregister_failure_witness :
  CONFIG_SPI_FLASH_MTD (Platform := P64) = true /\
  mtds s_del_fails !! dev_id dev_h256 =
    Some (set_priv (Some dev_h256) mtd_info0) /\
  mram_mtd_registered s_del_fails = true /\
  del_mtd_device (Platform := P64) (dev_id dev_h256)
    (set_priv (Some dev_h256) mtd_info0) (world s_del_fails) =
    (-16, board_with [] [] []
            (fun q => if decide (q = dev_id dev_h256) then 1%nat else 0%nat)) /\
  -16 <> 0 /\
  exists s',
    spi_mram_remove (P := P64) dev_h256 s_del_fails = Some (0, s') /\
    mram_mtd_registered s' = true /\ dev_data s' = None.
Proof.
  assert (Hm : mtds s_del_fails !! dev_id dev_h256 =
               Some (set_priv (Some dev_h256) mtd_info0))
    by (vm_compute; reflexivity).
  assert (Hne : -16 <> 0) by lia.
  split; [reflexivity |]. split; [exact Hm |]. split; [reflexivity |].
  split; [reflexivity |]. split; [exact Hne |].
  destruct (remove_hides_unregister_failure (P := P64) s_del_fails dev_h256 _
              (-16) _ eq_refl Hm eq_refl eq_refl Hne)
    as (s' & Hrun & Hreg & _ & Hd & _).
  exists s'. split; [exact Hrun |]. split; [exact Hreg | exact Hd].
Defined.

(** X6: the mr25h256, bound and not registered. *)
Lemma registration_keeps_registry_consistent_witness :
  mtds s_unregistered !! dev_id dev_h256 =
    Some (set_priv (Some dev_h256) mtd_info0) /\
  dev_data s_unregistered = Some mr25h256_data /\
  registry_consistent (P := P64) (dev_id dev_h256) s_unregistered /\
  exists r s',
    spi_mram_mtd_register (P := P64) (dev_id dev_h256) s_unregistered =
      Some (r, s') /\
    registry_consistent (P := P64) (dev_id dev_h256) s'.
Proof.
  assert (Hm : mtds s_unregistered !! dev_id dev_h256 =
               Some (set_priv (Some dev_h256) mtd_info0))
    by (vm_compute; reflexivity).
  assert (Hinv : registry_consistent (P := P64) (dev_id dev_h256)
                   s_unregistered)
    by (split; [simpl; lia | reflexivity]).
  split; [exact Hm |]. split; [reflexivity |]. split; [exact Hinv |].
  exact (proj1 (registration_keeps_registry_consistent (P := P64)
                  s_unregistered dev_h256 _ mr25h256_data Hm eq_refl Hinv)).
Defined.

(** X7: the same state, registered and unregistered again. *)
Lemma register_unregister_round_trip_witness :
  mtds s_unregistered !! dev_id dev_h256 =
    Some (set_priv (Some dev_h256) mtd_info0) /\
  dev_data s_unregistered = Some mr25h256_data /\
  mram_mtd_registered s_unregistered = false /\
  exists r s1 s2,
    spi_mram_mtd_register (P := P64) (dev_id dev_h256) s_unregistered =
      Some (r, s1) /\
    spi_mram_mtd_unregister (P := P64) dev_h256 s1 = Some (tt, s2).
Proof.
  assert (Hm : mtds s_unregistered !! dev_id dev_h256 =
               Some (set_priv (Some dev_h256) mtd_info0))
    by (vm_compute; reflexivity).
  split; [exact Hm |]. split; [reflexivity |]. split; [reflexivity |].
  destruct (register_unregister_round_trip (P := P64) s_unregistered dev_h256
              _ mr25h256_data Hm eq_refl eq_refl)
    as (r & s1 & s2 & Hreg & Hun & _).
  exists r, s1, s2. split; [exact Hreg | exact Hun].
Defined.

(** X8: a read on the mr25h256 whose first transfer fails. *)
Lemma read_reports_last_transfer_witness :
  dev_data (s_h256 [-5]) = Some mr25h256_data /\
  mtds (s_h256 [-5]) !! 2%nat = Some (set_priv (Some dev_h256) mtd_info0) /\
  (addr_bytes mr25h256_data = 2 \/ addr_bytes mr25h256_data = 3) /\
  exists result retlen' buf' s',
    spi_mram_read (P := P64) 2%nat 0 16 0 [] (s_h256 [-5]) =
      Some ((result, retlen', buf'), s') /\
    (result = 0 -> retlen' = 16) /\ (result <> 0 -> retlen' = 0).
Proof.
  assert (Hm : mtds (s_h256 [-5]) !! 2%nat =
               Some (set_priv (Some dev_h256) mtd_info0))
    by (vm_compute; reflexivity).
  assert (Hw : addr_bytes mr25h256_data = 2 \/ addr_bytes mr25h256_data = 3)
    by (left; reflexivity).
  split; [reflexivity |]. split; [exact Hm |]. split; [exact Hw |].
  destruct (read_reports_last_transfer (P := P64) (s_h256 [-5]) mr25h256_data
              _ 2%nat 0 16 0 [] eq_refl Hm Hw)
    as (result & retlen' & buf' & s' & p1 & p2 & p3 & w2 & Hrun & _ & _ & _
        & Hok & Herr & _).
  exists result, retlen', buf', s'.
  split; [exact Hrun |]. split; [exact Hok | exact Herr].
Defined.

(** X9: a write of 2 bytes from a buffer of 3. *)
Lemma write_sends_first_len_bytes_witness :
  dev_data (s_h256 []) = Some mr25h256_data /\
  mtds (s_h256 []) !! 2%nat = Some (set_priv (Some dev_h256) mtd_info0) /\
  (addr_bytes mr25h256_data = 2 \/ addr_bytes mr25h256_data = 3) /\
  0 <= 2 < 2 ^ 29 /\
  exists result retlen' s' pA pB pC pD,
    spi_mram_write (P := P64) 2%nat 0x10 2 0 [7; 8; 9] (s_h256 []) =
      Some ((result, retlen'), s') /\
    spi_log s' = spi_log (s_h256 []) ++ [pA; pB; pC; pD] /\
    ph_bitlen pD = 8 * 2 /\
    ph_sent pD = take (Z.to_nat 2) [7; 8; 9].
Proof.
  assert (Hm : mtds (s_h256 []) !! 2%nat =
               Some (set_priv (Some dev_h256) mtd_info0))
    by (vm_compute; reflexivity).
  assert (Hw : addr_bytes mr25h256_data = 2 \/ addr_bytes mr25h256_data = 3)
    by (left; reflexivity).
  assert (Hlen : 0 <= 2 < 2 ^ 29) by lia.
  split; [reflexivity |]. split; [exact Hm |]. split; [exact Hw |].
  split; [exact Hlen |].
  destruct (write_sends_first_len_bytes (P := P64) (s_h256 []) mr25h256_data
              _ 2%nat 0x10 2 0 [7; 8; 9] eq_refl Hm Hw Hlen)
    as (result & retlen' & s' & pA & pB & pC & pD & Hrun & Hlog & Hbits
        & Hsent & _).
  exists result, retlen', s', pA, pB, pC, pD.
  split; [exact Hrun |]. split; [exact Hlog |]. split; [exact Hbits |].
  exact Hsent.
Defined.

(** X10: on the mr25h256, offset 0x10010 reads what offset 0x10 reads. *)
Lemma offset_wraps_at_address_width_witness :
  dev_data (s_h256 []) = Some mr25h256_data /\
  (addr_bytes mr25h256_data = 2 \/ addr_bytes mr25h256_data = 3) /\
  spi_mram_read (P := P64) 2%nat
    (0x10 + 1 * 2 ^ (8 * addr_bytes mr25h256_data)) 4 0 [] (s_h256 []) =
  spi_mram_read (P := P64) 2%nat 0x10 4 0 [] (s_h256 []).
Proof.
  assert (Hw : addr_bytes mr25h256_data = 2 \/ addr_bytes mr25h256_data = 3)
    by (left; reflexivity).
  split; [reflexivity |]. split; [exact Hw |].
  exact (proj1 (offset_wraps_at_address_width (P := P64) (s_h256 [])
                  mr25h256_data 2%nat 0x10 1 4 0 [] eq_refl Hw)).
Defined.

(** X11: offset 0x1234 of the mr25h256. *)
Lemma in_range_offset_round_trip_witness :
  dev_get_driver_data dev_h256 = Some mr25h256_data /\
  0 <= 0x1234 < data_size mr25h256_data /\
  exists addr bits,
    mram_addr mr25h256_data 0x1234 = Some (addr, bits) /\
    be_decode (take (Z.to_nat (bits / 8)) addr) = 0x1234.
Proof.
  assert (Hg : dev_get_driver_data dev_h256 = Some mr25h256_data)
    by (vm_compute; reflexivity).
  assert (Hr : 0 <= 0x1234 < data_size mr25h256_data) by (simpl; lia).
  split; [exact Hg |]. split; [exact Hr |].
  destruct (in_range_offset_round_trip dev_h256 mr25h256_data 0x1234 Hg Hr)
    as (addr & bits & Ha & Hback & _).
  exists addr, bits. split; [exact Ha | exact Hback].
Defined.


(** X13: an erase on a device bound to four address bytes. *)
Lemma erase_unsupported_width_witness :
  dev_data s_width4 = Some (Mr25hxxData 0x80000 4) /\
  addr_bytes (Mr25hxxData 0x80000 4) <> 2 /\
  addr_bytes (Mr25hxxData 0x80000 4) <> 3 /\
  exists s',
    spi_mram_erase (P := P64) 1%nat (EraseInfo 0 16) s_width4 = Some (-1, s') /\
    spi_log s' = spi_log s_width4.
Proof.
  assert (H2 : addr_bytes (Mr25hxxData 0x80000 4) <> 2) by (simpl; lia).
  assert (H3 : addr_bytes (Mr25hxxData 0x80000 4) <> 3) by (simpl; lia).
  split; [reflexivity |]. split; [exact H2 |]. split; [exact H3 |].
  rewrite (erase_unsupported_width (P := P64) s_width4 _ 1%nat
             (EraseInfo 0 16) eq_refl H2 H3).
  eexists. split; vm_compute; reflexivity.
Defined.

(** X14: the mr25h256 probed while [add_mtd_device] fails with -12. *)
Lemma probe_registration_failure_witness :
  CONFIG_SPI_FLASH_MTD (Platform := P64) = true /\
  mtds s_add_fails !! dev_id dev_h256 = Some mtd_info0 /\
  dev_get_driver_data dev_h256 = Some mr25h256_data /\
  mram_mtd_registered s_add_fails = false /\
  dm_spi_claim_bus (Platform := P64) dev_h256 (world s_add_fails) =
    (0, world s_add_fails) /\
  add_mtd_device (Platform := P64) (dev_id dev_h256)
    (mtd_fill mr25h256_data (set_priv (Some dev_h256) mtd_info0))
    (world s_add_fails) =
    (-12, board_with [] [] [] (fun _ => 0%nat)) /\
  -12 <> 0 /\
  exists s',
    spi_mram_probe (P := P64) dev_h256 s_add_fails = Some (-12, s') /\
    mram_mtd_registered s' = false /\
    dev_data s' = Some mr25h256_data.
Proof.
  assert (Hm : mtds s_add_fails !! dev_id dev_h256 = Some mtd_info0)
    by (vm_compute; reflexivity).
  assert (Hg : dev_get_driver_data dev_h256 = Some mr25h256_data)
    by (vm_compute; reflexivity).
  assert (Hne : -12 <> 0) by lia.
  split; [reflexivity |]. split; [exact Hm |]. split; [exact Hg |].
  split; [reflexivity |]. split; [reflexivity |]. split; [reflexivity |].
  split; [exact Hne |].
  destruct (probe_registration_failure (P := P64) s_add_fails dev_h256 _
              mr25h256_data _ _ (-12) eq_refl Hm Hg eq_refl eq_refl eq_refl Hne)
    as (s' & Hrun & Hreg & _ & Hd & _).
  exists s'. split; [exact Hrun |]. split; [exact Hreg | exact Hd].
Defined.
